(** * NIfTI-gridview: the grid composer and its background wrappers

    A shallow embedding of

      - [visualization/draw_grid.py]      ([colormaps], [draw_grid], [draw_grid_contour]),
      - [ngv_model/draw_grid_wrapper.py]  ([draw_grid_wrapper.run]),
      - [ngv_io/ngv_io_wrapper.py]        ([ngv_io_reader_wrapper.__getitem__]),

    together with the properties the specification states about them.

    The Python code is glue over torch, torchvision, numpy, OpenCV and Qt.
    The parts of those libraries that decide geometry (squeeze, constant
    padding, slicing, the tiling of [make_grid]) are written out on tensors
    given as a shape and row-major data.  Floating point arithmetic, contour
    extraction, contour drawing and colormap lookup tables are taken as a
    [Backend] every statement is parametric in.

    The sources target Python 3 ([ngv_logger.global_log] passes [stack_info]
    to [Logger.log]), so comparing [None] with an integer raises [TypeError]. *)

From Stdlib Require Import ZArith List String Bool Lia QArith Qround.
Import ListNotations.
Local Open Scope Z_scope.

Set Implicit Arguments.

(** ** Exceptions and results *)

(** The exception classes that can reach a caller of the modelled functions.
    [TorchError] stands for a failure raised inside torch or torchvision and
    [Cv2Error] for one raised inside OpenCV; the others are Python built-ins. *)
Inductive exn : Type :=
| AssertionError
| TypeError
| KeyError
| AttributeError
| IndexError
| ValueError
| ZeroDivisionError
| TorchError
| Cv2Error.

Inductive result (A : Type) : Type :=
| Ok (a : A)
| Raise (e : exn).
Arguments Ok {A} a.
Arguments Raise {A} e.

Definition rbind {A B} (r : result A) (k : A -> result B) : result B :=
  match r with
  | Ok a => k a
  | Raise e => Raise e
  end.

Declare Scope res_scope.
Delimit Scope res_scope with res.
Notation "x <- e ;; k" := (rbind e (fun x => k))
  (at level 61, e at next level, right associativity) : res_scope.
Notation "e ;;; k" := (rbind e (fun _ => k))
  (at level 61, right associativity) : res_scope.
Local Open Scope res_scope.

(** ** The world outside the functions

    [stdout] collects what [print] writes (here: caught exceptions) and
    [display_msg] the strings emitted on the Qt signal of that name. *)
Record world : Type := mkWorld {
  stdout : list exn;
  display_msg : list string
}.

(** A computation may fail and may change the world; the world it leaves
    behind is kept when it fails, as in Python. *)
Definition M (A : Type) : Type := world -> result A * world.

Definition ret {A} (a : A) : M A := fun w => (Ok a, w).
Definition lift {A} (r : result A) : M A := fun w => (r, w).
Definition bind {A B} (m : M A) (k : A -> M B) : M B :=
  fun w =>
    match m w with
    | (Ok a, w') => k a w'
    | (Raise e, w') => (Raise e, w')
    end.
Definition print (e : exn) : M unit :=
  fun w => (Ok tt, {| stdout := stdout w ++ [e]; display_msg := display_msg w |}).
Definition emit (s : string) : M unit :=
  fun w => (Ok tt, {| stdout := stdout w; display_msg := display_msg w ++ [s] |}).

(** [try: body except Exception as e: handler e]. *)
Definition try_except {A} (body : M A) (handler : exn -> M A) : M A :=
  fun w =>
    match body w with
    | (Ok a, w') => (Ok a, w')
    | (Raise e, w') => handler e w'
    end.

Declare Scope m_scope.
Delimit Scope m_scope with M.
Notation "x <~ e ;; k" := (bind e (fun x => k))
  (at level 61, e at next level, right associativity) : m_scope.
Notation "e ;;~ k" := (bind e (fun _ => k))
  (at level 61, right associativity) : m_scope.
Local Open Scope m_scope.

(** ** Tensors

    A contiguous tensor (or numpy array): its shape and its elements in
    row-major order. *)
Record tensor (A : Type) : Type := mkTensor {
  shape : list nat;
  data : list A
}.
Arguments mkTensor {A} shape data.

Definition numel (s : list nat) : nat := fold_right Nat.mul 1%nat s.

Definition dim {A} (t : tensor A) : nat := List.length (shape t).

(** [len(t)]: the extent of the first axis. *)
Definition len {A} (t : tensor A) : result Z :=
  match shape t with
  | d :: _ => Ok (Z.of_nat d)
  | [] => Raise TypeError
  end.

(** [t.squeeze()]: every axis of extent 1 is dropped. *)
Definition squeeze {A} (t : tensor A) : tensor A :=
  mkTensor (filter (fun d => negb (d =? 1)%nat) (shape t)) (data t).

(** [t.unsqueeze(1)]. *)
Definition unsqueeze1 {A} (t : tensor A) : result (tensor A) :=
  match shape t with
  | d :: rest => Ok (mkTensor (d :: 1%nat :: rest) (data t))
  | [] => Raise IndexError
  end.

(** The list cut into [count] consecutive blocks of [n] elements. *)
Fixpoint chunks {A} (n count : nat) (l : list A) : list (list A) :=
  match count with
  | O => []
  | S c => firstn n l :: chunks n c (skipn n l)
  end.

(** [nn.ConstantPad3d((0, 0, 0, 0, offset, 0), value)(t)]: the third axis
    from the end grows by [offset] blocks of [value] at its front.  Six pad
    widths need at least three axes.  A negative width removes slices. *)
Definition ConstantPad3d_front {A} (offset : Z) (value : A) (t : tensor A)
  : result (tensor A) :=
  let r := dim t in
  match skipn (r - 3) (shape t) with
  | [d; h; w] =>
      let pre := firstn (r - 3) (shape t) in
      if offset <? - Z.of_nat d then Raise TorchError
      else
        let blocks := chunks (d * h * w) (numel pre) (data t) in
        let pad1 (b : list A) :=
          if 0 <=? offset
          then repeat value (Z.to_nat offset * h * w) ++ b
          else skipn (Z.to_nat (- offset) * h * w) b in
        Ok (mkTensor (pre ++ [Z.to_nat (Z.of_nat d + offset); h; w])
                     (flat_map pad1 blocks))
  | _ => Raise TorchError
  end.

(** Python's resolution of one slice bound against an axis of extent [n]. *)
Definition slice_index (n i : Z) : Z :=
  if i <? 0 then Z.max (i + n) 0 else Z.min i n.

(** [t[..., lo:hi, ...]] on axis [ax]. *)
Definition slice_axis {A} (ax : nat) (lo hi : Z) (t : tensor A) : tensor A :=
  let n := nth ax (shape t) 0%nat in
  let a := Z.to_nat (slice_index (Z.of_nat n) lo) in
  let b := Z.to_nat (slice_index (Z.of_nat n) hi) in
  let outer := numel (firstn ax (shape t)) in
  let inner := numel (skipn (S ax) (shape t)) in
  mkTensor (firstn ax (shape t) ++ [(b - a)%nat] ++ skipn (S ax) (shape t))
           (flat_map (fun c => firstn ((b - a) * inner) (skipn (a * inner) c))
                     (chunks (n * inner) outer (data t))).

(** ** Python objects handed to the composer *)

(** What may arrive as [image] or [seg]: nothing, a numpy array or a tensor.
    Voxel values are integers. *)
Inductive pyimage : Type :=
| PyNone
| NdArray (t : tensor Z)
| Tensor (t : tensor Z).

(** [crop = {'center': [...], 'size': [...]}]. *)
Record crop_spec : Type := mkCrop {
  center : list Z;
  size : list Z
}.

(** The keyword arguments of [draw_grid] and [draw_grid_contour]; [None] in
    an optional field is Python's [None], which is also the default. *)
Record kwargs : Type := mkKwargs {
  crop : option crop_spec;
  nrow : option Z;
  offset : option Z;
  background : Z;
  margins : Z;
  cmap : option string;
  thickness : Z
}.

Definition default_kwargs : kwargs :=
  {| crop := None; nrow := None; offset := None; background := 0;
     margins := 1; cmap := None; thickness := 2 |}.

Definition with_offset (o : option Z) (kw : kwargs) : kwargs :=
  {| crop := crop kw; nrow := nrow kw; offset := o;
     background := background kw; margins := margins kw; cmap := cmap kw;
     thickness := thickness kw |}.

Definition with_nrow (n : option Z) (kw : kwargs) : kwargs :=
  {| crop := crop kw; nrow := n; offset := offset kw;
     background := background kw; margins := margins kw; cmap := cmap kw;
     thickness := thickness kw |}.

(** ** The offset step *)

(** [offset >= 0] in Python 3. *)
Definition py_ge (a : option Z) (b : Z) : result bool :=
  match a with
  | Some x => Ok (b <=? x)
  | None => Raise TypeError
  end.

Definition is_None {A} (a : option A) : bool :=
  match a with
  | None => true
  | Some _ => false
  end.

(** [assert offset >= 0 or offset is None, "In correct offset setting!"]:
    the left operand of [or] is evaluated first. *)
Definition assert_offset (offset : option Z) : result unit :=
  c <- py_ge offset 0 ;;
  if c || is_None offset then Ok tt else Raise AssertionError.

(** A method call on the object: [None] has none of the tensor methods. *)
Definition as_tensor (image : pyimage) : result (tensor Z) :=
  match image with
  | PyNone => Raise AttributeError
  | NdArray t => Ok t
  | Tensor t => Ok t
  end.

(** [if not offset is None: image = image.squeeze();
     image = nn.ConstantPad3d((0, 0, 0, 0, offset, 0), 0)(image)]. *)
Definition offset_step (offset : option Z) (image : tensor Z)
  : result (tensor Z) :=
  match offset with
  | Some k => ConstantPad3d_front k 0 (squeeze image)
  | None => Ok image
  end.

(** [if image.dim() == 3: image = image.unsqueeze(1)]. *)
Definition channel_step (image : tensor Z) : result (tensor Z) :=
  if (dim image =? 3)%nat then unsqueeze1 image else Ok image.

(** ** The column count *)

(** [ceil(sqrt(n))] of a non-negative integer; the double precision square
    root is exact enough for every depth a volume can have. *)
Definition ceil_sqrt (n : Z) : Z :=
  let s := Z.sqrt n in
  if s * s =? n then s else s + 1.

(** [if nrow is None: nrow = np.int(np.ceil(np.sqrt(len(image))))]. *)
Definition nrow_step (nrow : option Z) (image : tensor Z) : result Z :=
  match nrow with
  | Some n => Ok n
  | None => d <- len image ;; Ok (ceil_sqrt d)
  end.

(** ** The crop step *)

(** [[np.max([0, int(c - s // 2)]) for c, s in zip(center, size)]]. *)
Definition lower_bounds (c : crop_spec) : list Z :=
  map (fun cs => Z.max 0 (fst cs - snd cs / 2)) (combine (center c) (size c)).

(** [[np.min([l + s, m]) for l, s, m in zip(lower_bound, size, im_shape[1:])]]. *)
Definition upper_bounds (c : crop_spec) (im_shape : list nat) : list Z :=
  map (fun lsm => Z.min (fst (fst lsm) + snd (fst lsm)) (snd lsm))
      (combine (combine (lower_bounds c) (size c))
               (map Z.of_nat (tl im_shape))).

(** [l[i]] on a Python list. *)
Definition py_index {A} (l : list A) (i : nat) : result A :=
  match nth_error l i with
  | Some a => Ok a
  | None => Raise IndexError
  end.

(** [image[:, :, lower_bound[0]:upper_bound[0], lower_bound[1]:upper_bound[1]]]. *)
Definition crop_step (crop : option crop_spec) (image : tensor Z)
  : result (tensor Z) :=
  match crop with
  | None => Ok image
  | Some c =>
      let lower_bound := lower_bounds c in
      let upper_bound := upper_bounds c (shape image) in
      l0 <- py_index lower_bound 0 ;;
      u0 <- py_index upper_bound 0 ;;
      l1 <- py_index lower_bound 1 ;;
      u1 <- py_index upper_bound 1 ;;
      if (dim image <? 4)%nat then Raise IndexError
      else Ok (slice_axis 3 l1 u1 (slice_axis 2 l0 u0 image))
  end.

(** Lines 59-87 of [draw_grid], repeated verbatim as lines 133-161 of
    [draw_grid_contour]: offset, channel axis, column count, crop.  The
    second [if nrow is None] of the source can never fire and is left out. *)
Definition prepare (kw : kwargs) (image : tensor Z)
  : result (tensor Z * Z) :=
  image <- offset_step (offset kw) image ;;
  image <- channel_step image ;;
  n <- nrow_step (nrow kw) image ;;
  image <- crop_step (crop kw) image ;;
  Ok (image, n).

(** ** [torchvision.utils.make_grid] *)

(** [if tensor.dim() == 4 and tensor.size(1) == 1: tensor = torch.cat((tensor,
    tensor, tensor), 1)]: a single channel is repeated three times. *)
Definition cat3 {A} (t : tensor A) : tensor A :=
  match shape t with
  | [b; 1%nat; h; w] =>
      mkTensor [b; 3%nat; h; w]
               (flat_map (fun c => c ++ c ++ c) (chunks (h * w) b (data t)))
  | _ => t
  end.

(** Element [(k, c, y, x)] of a batch of images. *)
Definition pixel4 {A} (dflt : A) (t : tensor A) (k c y x : nat) : A :=
  match shape t with
  | [_; ch; h; w] => nth (((k * ch + c) * h + y) * w + x) (data t) dflt
  | _ => dflt
  end.

(** What ends up at row [gy], column [gx] of channel [c] of the grid: the
    grid is filled with [pad_value], then image [k = y * xmaps + x] is copied
    to the cell whose corner is [(y * height + padding, x * width + padding)]. *)
Definition grid_pixel {A} (pad_value : A) (t : tensor A)
    (padding xmaps nmaps h w c gy gx : nat) : A :=
  let height := (h + padding)%nat in
  let width := (w + padding)%nat in
  if (gy <? padding)%nat || (gx <? padding)%nat then pad_value
  else
    let y := ((gy - padding) / height)%nat in
    let iy := ((gy - padding) mod height)%nat in
    let x := ((gx - padding) / width)%nat in
    let ix := ((gx - padding) mod width)%nat in
    if (iy <? h)%nat && (ix <? w)%nat && (x <? xmaps)%nat
       && (y * xmaps + x <? nmaps)%nat
    then pixel4 pad_value t (y * xmaps + x) c iy ix
    else pad_value.

(** The number of grid columns and rows: [xmaps = min(nrow, nmaps)],
    [ymaps = int(math.ceil(float(nmaps) / xmaps))]. *)
Definition grid_layout (nrow nmaps : Z) : result (Z * Z) :=
  let xmaps := Z.min nrow nmaps in
  if xmaps =? 0 then Raise ZeroDivisionError
  else if xmaps <? 0 then Raise TorchError
  else Ok (xmaps, (nmaps + xmaps - 1) / xmaps).

(** The part of [make_grid] after normalisation, on a batch [B x C x H x W]
    (the composer never passes fewer than four axes).  A batch of one image
    is returned as it is, without padding. *)
Definition make_grid_tiles {A} (t : tensor A) (nrow padding : Z) (pad_value : A)
  : result (tensor A) :=
  match shape t with
  | [b; c; h; w] =>
      if (b =? 1)%nat then Ok (mkTensor [c; h; w] (data t))
      else
        xy <- grid_layout nrow (Z.of_nat b) ;;
        if padding <? 0 then Raise TorchError
        else
          let xmaps := Z.to_nat (fst xy) in
          let ymaps := Z.to_nat (snd xy) in
          let p := Z.to_nat padding in
          let gh := ((h + p) * ymaps + p)%nat in
          let gw := ((w + p) * xmaps + p)%nat in
          Ok (mkTensor [c; gh; gw]
                (flat_map (fun ch =>
                   flat_map (fun gy =>
                     map (fun gx => grid_pixel pad_value t p xmaps b h w ch gy gx)
                         (seq 0 gw))
                     (seq 0 gh))
                   (seq 0 c)))
  | _ => Raise TorchError
  end.

(** [t.permute(1, 2, 0)] on [C x H x W]. *)
Definition permute_hwc {A} (dflt : A) (t : tensor A) : result (tensor A) :=
  match shape t with
  | [c; h; w] =>
      Ok (mkTensor [h; w; c]
            (flat_map (fun y =>
               flat_map (fun x =>
                 map (fun ch => nth ((ch * h + y) * w + x) (data t) dflt)
                     (seq 0 c))
                 (seq 0 w))
               (seq 0 h)))
  | _ => Raise TorchError
  end.

(** [t[0]]. *)
Definition first_item {A} (t : tensor A) : result (tensor A) :=
  match shape t with
  | S _ :: rest => Ok (mkTensor rest (firstn (numel rest) (data t)))
  | _ => Raise IndexError
  end.

(** [im[:, :, 0]] on [H x W x C]. *)
Definition channel0 {A} (t : tensor A) : result (tensor A) :=
  match shape t with
  | [h; w; S c] =>
      Ok (mkTensor [h; w]
            (flat_map (fun px => firstn 1 px) (chunks (S c) (h * w) (data t))))
  | _ => Raise IndexError
  end.

(** [astype('uint8')] on an integer. *)
Definition u8 (x : Z) : Z := x mod 256.

(** ** The colormap table *)

Inductive colormap : Type :=
| COLORMAP_PARULA | COLORMAP_AUTUMN | COLORMAP_BONE | COLORMAP_JET
| COLORMAP_RAINBOW | COLORMAP_OCEAN | COLORMAP_SUMMER | COLORMAP_SPRING
| COLORMAP_COOL | COLORMAP_HSV | COLORMAP_PINK | COLORMAP_HOT.

Definition colormaps : list (string * option colormap) :=
  [ ("Default", None);
    ("Parula", Some COLORMAP_PARULA);
    ("Autumn", Some COLORMAP_AUTUMN);
    ("Bone", Some COLORMAP_BONE);
    ("Jet", Some COLORMAP_JET);
    ("Rainbow", Some COLORMAP_RAINBOW);
    ("Ocean", Some COLORMAP_OCEAN);
    ("Summer", Some COLORMAP_SUMMER);
    ("Spring", Some COLORMAP_SPRING);
    ("Cool", Some COLORMAP_COOL);
    ("HSV", Some COLORMAP_HSV);
    ("Pink", Some COLORMAP_PINK);
    ("Hot", Some COLORMAP_HOT) ]%string.

(** [d[key]] on a dict given as its items. *)
Fixpoint dict_get {V} (d : list (string * V)) (key : string) : result V :=
  match d with
  | [] => Raise KeyError
  | (k, v) :: rest => if String.eqb k key then Ok v else dict_get rest key
  end.

(** ** Contours and colours *)

(** A contour: its points as [(x, y)]. *)
Definition contour : Type := list (Z * Z).

(** What [cv2.findContours] returns: three values in OpenCV 3, two in
    OpenCV 2 and 4. *)
Inductive fc_ret : Type :=
| Fc3 (image : tensor Z) (contours : list contour) (hierarchy : list Z)
| Fc2 (contours : list contour) (hierarchy : list Z).

(** [_a, contours, _b = ...]. *)
Definition unpack3 (r : fc_ret) : result (list contour) :=
  match r with
  | Fc3 _ contours _ => Ok contours
  | Fc2 _ _ => Raise ValueError
  end.

(** The [color] argument: nothing, or the [QBrush] of a table cell. *)
Inductive pycolor : Type :=
| ColorNone
| QBrush (r g b a : Z).

(** [color.color().getRgb()[:3]]. *)
Definition getRgb3 (color : pycolor) : result (Z * Z * Z) :=
  match color with
  | ColorNone => Raise AttributeError
  | QBrush r g b _ => Ok (r, g, b)
  end.

(** ** The element type of the mask *)

(** The element type the mask has when it reaches [make_grid]: a numpy array
    was converted with [astype('uint8')] on line 131; a tensor handed in
    directly keeps its own type, taken to be torch's default for integers. *)
Inductive dtype : Type :=
| UInt8
| Int64.

Definition mask_dtype (seg : pyimage) : dtype :=
  match seg with
  | NdArray _ => UInt8
  | _ => Int64
  end.

(** Whether a fill value can be converted to the element type without
    overflow. *)
Definition representable (dt : dtype) (v : Z) : bool :=
  match dt with
  | UInt8 => (0 <=? v) && (v <=? 255)
  | Int64 => (- 2 ^ 63 <=? v) && (v <? 2 ^ 63)
  end.

(** ** The libraries behind the composer

    [float] is the element type of a normalised tensor.  [norm_range] is the
    in-place normalisation [make_grid(normalize=True)] applies to the whole
    batch, [to_float] the conversion of [pad_value], [scale_to_uint8] the
    [(x * 255.) ... astype('uint8')] of one element.  The three OpenCV
    routines are the ones [draw_grid.py] calls. *)
Record Backend : Type := mkBackend {
  float : Type;
  norm_range : list Z -> result (list float);
  to_float : Z -> float;
  scale_to_uint8 : float -> Z;
  findContours : tensor Z -> result fc_ret;
  drawContours :
    tensor Z -> list contour -> Z -> Z * Z * Z -> Z -> result (tensor Z);
  applyColorMap : tensor Z -> colormap -> result (tensor Z)
}.

Section Composer.

Variable B : Backend.

(** [make_grid(image, nrow=nrow, padding=margins, normalize=True,
    pad_value=background)]. *)
Definition make_grid_normalized (image : tensor Z) (nrow padding pad_value : Z)
  : result (tensor (float B)) :=
  let t := cat3 image in
  d <- norm_range B (data t) ;;
  make_grid_tiles (mkTensor (shape t) d) nrow padding (to_float B pad_value).

(** [make_grid(seg, nrow=nrow, padding=margins, normalize=False,
    pad_value=background)].  Once the layout is computed, and unless the
    batch holds a single image, the grid is allocated in the element type of
    the mask with [tensor.new_full(size, pad_value)], which raises
    [RuntimeError] for a fill value the type cannot hold. *)
Definition make_grid_raw (dt : dtype) (seg : tensor Z)
    (nrow padding pad_value : Z) : result (tensor Z) :=
  let t := cat3 seg in
  g <- make_grid_tiles t nrow padding pad_value ;;
  match shape t with
  | 1%nat :: _ => Ok g
  | _ => if representable dt pad_value then Ok g else Raise TorchError
  end.

(** [if not (cmap is None or cmap == 'Default'):
      im_grid = cv2.applyColorMap(im_grid[:,:,0], colormaps[cmap])]. *)
Definition cmap_step (cmap : option string) (im_grid : tensor Z)
  : result (tensor Z) :=
  match cmap with
  | None => Ok im_grid
  | Some name =>
      if String.eqb name "Default" then Ok im_grid
      else
        gray <- channel0 im_grid ;;
        id <- dict_get colormaps name ;;
        match id with
        | Some c => applyColorMap B gray c
        | None => Raise Cv2Error
        end
  end.

(** [draw_grid(image, crop, nrow, offset, background, margins, cmap)].
    A numpy array becomes a tensor with the same elements; the first method
    called on [image] is [squeeze] or [dim]. *)
Definition draw_grid (image : pyimage) (kw : kwargs) : M (tensor Z) :=
  lift (
    assert_offset (offset kw) ;;;
    image <- as_tensor image ;;
    p <- prepare kw image ;;
    im_grid <- make_grid_normalized (fst p) (snd p) (margins kw) (background kw) ;;
    im_grid <- permute_hwc (to_float B 0) im_grid ;;
    cmap_step (cmap kw)
      (mkTensor (shape im_grid) (map (scale_to_uint8 B) (data im_grid)))).

(** [if isinstance(seg, np.ndarray): seg = tensor(seg.astype('uint8'))]. *)
Definition seg_tensor (seg : pyimage) : pyimage :=
  match seg with
  | NdArray t => Tensor (mkTensor (shape t) (map u8 (data t)))
  | other => other
  end.

(** Lines 127-165 of [draw_grid_contour]: the mask tiled like the image,
    [seg_grid[0].numpy().astype('uint8')]. *)
Definition seg_grid (seg : pyimage) (kw : kwargs) : result (tensor Z) :=
  let dt := mask_dtype seg in
  assert_offset (offset kw) ;;;
  seg <- as_tensor (seg_tensor seg) ;;
  p <- prepare kw seg ;;
  g <- make_grid_raw dt (fst p) (snd p) (margins kw) (background kw) ;;
  g0 <- first_item g ;;
  Ok (mkTensor (shape g0) (map u8 (data g0))).

(** Lines 167-169: [_a, contours, _b = cv2.findContours(seg_grid, ...)],
    outside any [try]. *)
Definition find_contours (seg : pyimage) (kw : kwargs) : result (list contour) :=
  g <- seg_grid seg kw ;;
  r <- findContours B g ;;
  unpack3 r.

(** Lines 171-176: the [try] around [cv2.drawContours], [print(e)] in the
    handler, and [return im_grid].  [drawContours] draws into [im_grid];
    a call that raises is taken to have drawn nothing. *)
Definition draw_step (im_grid : tensor Z) (contours : list contour)
    (color : pycolor) (thickness : Z) : M (tensor Z) :=
  try_except
    (rgb <~ lift (getRgb3 color) ;;
     lift (drawContours B im_grid contours (-1) rgb thickness))
    (fun e => print e ;;~ ret im_grid).

Definition draw_grid_contour (im_grid : tensor Z) (seg : pyimage)
    (color : pycolor) (kw : kwargs) : M (tensor Z) :=
  contours <~ lift (find_contours seg kw) ;;
  draw_step im_grid contours color (thickness kw).

(** ** [draw_grid_wrapper] *)

(** The configuration dict: the entries [run] looks up by name, each absent
    ([None]) or present, and the remaining entries as the keyword arguments
    they become, an absent one taking the default of the signature. *)
Record config : Type := mkConfig {
  target_im : option pyimage;
  segment : option (list pyimage);
  segment_color : option (list pycolor);
  options : kwargs
}.

Record draw_grid_wrapper : Type := mkWrapper {
  _config : option config;
  _result : option (tensor Z)
}.

Definition set_config (self : draw_grid_wrapper) (c : config) : draw_grid_wrapper :=
  {| _config := Some c; _result := _result self |}.

Definition get_result (self : draw_grid_wrapper) : option (tensor Z) :=
  _result self.

(** [self._config.pop('target_im')] on the dict. *)
Definition pop_target_im (c : config) : result (pyimage * config) :=
  match target_im c with
  | Some im =>
      Ok (im, {| target_im := None; segment := segment c;
                 segment_color := segment_color c; options := options c |})
  | None => Raise KeyError
  end.

(** A method of the wrapper: it may fail, and it changes the wrapper and
    the world. *)
Definition method (A : Type) : Type :=
  draw_grid_wrapper -> world -> result A * draw_grid_wrapper * world.

(** The [for] loop of [run]: one overlay per mask, each drawn on the result
    of the one before. *)
Fixpoint overlay_all (pairs : list (pyimage * pycolor)) (kw : kwargs)
    (im : tensor Z) : method unit :=
  fun self w =>
    match pairs with
    | [] => (Ok tt, self, w)
    | (ss, ss_color) :: rest =>
        match draw_grid_contour im ss ss_color kw w with
        | (Ok im', w') =>
            overlay_all rest kw im'
              {| _config := _config self; _result := Some im' |} w'
        | (Raise e, w') => (Raise e, self, w')
        end
    end.

(** The body of the [try] in [run]. *)
Definition run_body (c : config) : method unit :=
  fun self w =>
    match pop_target_im c with
    | Raise e => (Raise e, self, w)
    | Ok (target, c') =>
        let self := {| _config := Some c'; _result := _result self |} in
        match draw_grid target (options c') w with
        | (Raise e, w') => (Raise e, self, w')
        | (Ok im, w') =>
            let self := {| _config := _config self; _result := Some im |} in
            match segment c', segment_color c' with
            | Some ss, Some cs => overlay_all (combine ss cs) (options c') im self w'
            | _, _ => (Ok tt, self, w')
            end
        end
    end.

(** [draw_grid_wrapper.run]: the assertion, then the [try] whose only
    handler is [except AttributeError], which emits the message on
    [display_msg]. *)
Definition run : method unit :=
  fun self w =>
    match _config self with
    | None => (Raise AssertionError, self, w)
    | Some c =>
        match run_body c self w with
        | (Raise AttributeError, self', w') =>
            (Ok tt, self', snd (emit "Wrong drawing configuration" w'))
        | other => other
        end
    end.

End Composer.

(** ** [ngv_io_reader_wrapper] *)

Section ReaderWrapper.

(** The reader class of [ngv_io/reader.py] and its keyed lookup; here only
    the wrapper's delegation to it matters. *)
Variable reader : Type.
Variable reader_getitem : reader -> string -> result pyimage.

Record ngv_io_reader_wrapper : Type := mkReaderWrapper {
  _reader : option reader
}.

(** [if not self._reader is None: return self._reader.__getitem__(item)];
    falling off the end of the method returns [None]. *)
Definition __getitem__ (self : ngv_io_reader_wrapper) (item : string)
  : result pyimage :=
  match _reader self with
  | Some r => reader_getitem r item
  | None => Ok PyNone
  end.

End ReaderWrapper.

(** ** An executable stand-in for the libraries

    Used to run the composer on concrete inputs.  Float arithmetic is exact
    rational arithmetic with the normalisation of current torchvision
    ([(x - lo) / max(hi - lo, 1e-5)]).  A contour is the list of foreground
    pixels that touch the background or the image border.  Drawing follows
    [cv2.drawContours] of OpenCV 3: an empty list of contours returns at
    once, a thickness above [MAX_THICKNESS] or an image of more than four
    channels raises an error, a stroke of thickness [t >= 0] covers the pixels
    within [t / 2] of a contour point, a negative thickness fills each row
    between the outermost points of the contour, and colour components are
    saturated to a byte.  The colormap is a grey ramp.  [findContours]
    returns three values, as line 168 of [draw_grid.py] expects. *)
Module Reference.

Definition exact_norm (l : list Z) : result (list Q) :=
  match l with
  | [] => Raise TorchError
  | x :: xs =>
      let lo := fold_right Z.min x xs in
      let hi := fold_right Z.max x xs in
      let den := if hi - lo =? 0 then (1 # 100000)%Q else inject_Z (hi - lo) in
      Ok (map (fun v => (inject_Z (v - lo) / den)%Q) l)
  end.

Definition exact_scale (q : Q) : Z := u8 (Qfloor (q * 255)%Q).

(** Pixel [(y, x)] of an [H x W] image; 0 outside. *)
Definition gray_at (im : tensor Z) (y x : Z) : Z :=
  match shape im with
  | [h; w] =>
      if (0 <=? y) && (y <? Z.of_nat h) && (0 <=? x) && (x <? Z.of_nat w)
      then nth (Z.to_nat y * w + Z.to_nat x) (data im) 0
      else 0
  | _ => 0
  end.

Definition on_boundary (im : tensor Z) (y x : Z) : bool :=
  negb (gray_at im y x =? 0)
  && ((gray_at im (y - 1) x =? 0) || (gray_at im (y + 1) x =? 0)
      || (gray_at im y (x - 1) =? 0) || (gray_at im y (x + 1) =? 0)).

Definition boundary_points (im : tensor Z) : list (Z * Z) :=
  match shape im with
  | [h; w] =>
      flat_map (fun y =>
        flat_map (fun x =>
          if on_boundary im (Z.of_nat y) (Z.of_nat x)
          then [(Z.of_nat x, Z.of_nat y)] else [])
          (seq 0 w))
        (seq 0 h)
  | _ => []
  end.

Definition contours_of (im : tensor Z) : list contour :=
  match boundary_points im with
  | [] => []
  | pts => [pts]
  end.

Definition findContours3 (im : tensor Z) : result fc_ret :=
  match shape im with
  | [_; _] => Ok (Fc3 im (contours_of im) [])
  | _ => Raise Cv2Error
  end.

(** [cv::MAX_THICKNESS]. *)
Definition MAX_THICKNESS : Z := 32767.

(** A colour component as it is stored in a byte. *)
Definition saturate (v : Z) : Z := Z.max 0 (Z.min 255 v).

(** The first [c] components of the scalar [(r, g, b, 0)]. *)
Definition scalar (rgb : Z * Z * Z) (c : nat) : list Z :=
  firstn c [saturate (fst (fst rgb)); saturate (snd (fst rgb));
            saturate (snd rgb); 0].

(** Whether the stroke along the points [pts] covers pixel [(x, y)]. *)
Definition covered (thickness : Z) (pts : contour) (y x : Z) : bool :=
  if thickness <? 0
  then existsb (fun p => (snd p =? y) && (fst p <=? x)) pts
       && existsb (fun p => (snd p =? y) && (x <=? fst p)) pts
  else
    let r := thickness / 2 in
    existsb (fun p => (Z.abs (fst p - x) <=? r) && (Z.abs (snd p - y) <=? r))
            pts.

(** The image [H x W] of [c] channels with the covered pixels set to the
    colour. *)
Definition paint (h w c : nat) (rgb : Z * Z * Z) (thickness : Z)
    (pts : contour) (d : list Z) : list Z :=
  flat_map (fun y =>
    flat_map (fun x =>
      if covered thickness pts (Z.of_nat y) (Z.of_nat x)
      then scalar rgb c
      else firstn c (skipn ((y * w + x) * c) d))
      (seq 0 w))
    (seq 0 h).

Definition paint_contours (im : tensor Z) (contours : list contour) (idx : Z)
    (rgb : Z * Z * Z) (thickness : Z) : result (tensor Z) :=
  match contours with
  | [] => Ok im
  | _ =>
      if MAX_THICKNESS <? thickness then Raise Cv2Error
      else
        let pts := List.concat contours in
        match shape im with
        | [h; w] =>
            Ok (mkTensor (shape im) (paint h w 1 rgb thickness pts (data im)))
        | [h; w; c] =>
            if (1 <=? c)%nat && (c <=? 4)%nat
            then Ok (mkTensor (shape im)
                       (paint h w c rgb thickness pts (data im)))
            else Raise Cv2Error
        | _ => Raise Cv2Error
        end
  end.

Definition grey_ramp (gray : tensor Z) (c : colormap) : result (tensor Z) :=
  match shape gray with
  | [h; w] => Ok (mkTensor [h; w; 3%nat] (flat_map (fun v => [v; v; v]) (data gray)))
  | _ => Raise Cv2Error
  end.

Definition opencv3 : Backend :=
  {| float := Q;
     norm_range := exact_norm;
     to_float := inject_Z;
     scale_to_uint8 := exact_scale;
     findContours := findContours3;
     drawContours := paint_contours;
     applyColorMap := grey_ramp |}.

End Reference.

(** ** Vocabulary of the specification *)

(** A tensor holds as many elements as its shape announces. *)
Definition wf {A} (t : tensor A) : Prop :=
  List.length (data t) = numel (shape t).

(** "The volume obtained by prepending [k] zero-filled slices" to a volume
    [D x H x W], in the words of the specification. *)
Definition prepend_zero_slices (k : nat) (V : tensor Z) : tensor Z :=
  match shape V with
  | [d; h; w] => mkTensor [(k + d)%nat; h; w] (repeat 0 (k * h * w) ++ data V)
  | _ => V
  end.

(** "The output grid has exactly [n] columns": the image is [n] cells of
    width [cell_w] wide, each preceded by a margin of [p], and a closing
    margin. *)
Definition has_columns (n : Z) (cell_w p : nat) (im : tensor Z) : Prop :=
  Z.of_nat (nth 1 (shape im) 0%nat)
  = (Z.of_nat cell_w + Z.of_nat p) * n + Z.of_nat p.

(** A wrapper whose configuration has no ['target_im'] entry, and one whose
    entry is [None] (what the reader wrapper hands out without a reader). *)
Definition no_target : draw_grid_wrapper :=
  {| _config := Some {| target_im := None; segment := None;
                        segment_color := None;
                        options := with_offset (Some 0) default_kwargs |};
     _result := None |}.

Definition none_target : draw_grid_wrapper :=
  {| _config := Some {| target_im := Some PyNone; segment := None;
                        segment_color := None;
                        options := with_offset (Some 0) default_kwargs |};
     _result := None |}.

(** The world before anything ran. *)
Definition w0 : world := {| stdout := []; display_msg := [] |}.

(** The volume [D x H x W] whose voxels count up from 1. *)
Definition vol (d h w : nat) : tensor Z :=
  mkTensor [d; h; w] (map Z.of_nat (seq 1 (d * h * w))).

(** The all-zero mask [D x H x W]. *)
Definition zero_mask (d h w : nat) : tensor Z :=
  mkTensor [d; h; w] (repeat 0 (d * h * w)).

(** A black grid image of the size [draw_grid] produces for two slices of
    2 x 2 with a margin of 1, a yellow brush, and a configuration with
    offset 0. *)
Definition black_grid : tensor Z := mkTensor [4; 7; 3]%nat (repeat 0 84).

Definition yellow : pycolor := QBrush 255 255 0 255.

Definition offset0 : kwargs := with_offset (Some 0) default_kwargs.

(** A tensor all of whose elements are zero. *)
Definition all_zero (t : tensor Z) : Prop := Forall (fun v => v = 0) (data t).

(** A configuration with offset 0 whose background fill value is 1. *)
Definition white_margins : kwargs :=
  {| crop := None; nrow := None; offset := Some 0; background := 1;
     margins := 1; cmap := None; thickness := 2 |}.

(** ** [draw_grid_wrapper.update_config] *)

(** The argument of [update_config]: a dict holding some of the entries of
    a configuration; [None] is an entry the dict does not have. *)
Record config_update : Type := mkUpdate {
  u_target_im : option pyimage;
  u_segment : option (list pyimage);
  u_segment_color : option (list pycolor);
  u_crop : option (option crop_spec);
  u_nrow : option (option Z);
  u_offset : option (option Z);
  u_background : option Z;
  u_margins : option Z;
  u_cmap : option (option string);
  u_thickness : option Z
}.

(** The entry of the updating dict where it has one, the old one otherwise. *)
Definition overridden {A} (new : option A) (old : A) : A :=
  match new with
  | Some v => v
  | None => old
  end.

(** [d.update(u)] on the configuration dict: the entries of [u] are set, the
    others stay. *)
Definition dict_update (c : config) (u : config_update) : config :=
  {| target_im := match u_target_im u with
                  | Some im => Some im
                  | None => target_im c
                  end;
     segment := match u_segment u with
                | Some ss => Some ss
                | None => segment c
                end;
     segment_color := match u_segment_color u with
                      | Some cs => Some cs
                      | None => segment_color c
                      end;
     options :=
       {| crop := overridden (u_crop u) (crop (options c));
          nrow := overridden (u_nrow u) (nrow (options c));
          offset := overridden (u_offset u) (offset (options c));
          background := overridden (u_background u) (background (options c));
          margins := overridden (u_margins u) (margins (options c));
          cmap := overridden (u_cmap u) (cmap (options c));
          thickness := overridden (u_thickness u) (thickness (options c)) |} |}.

(** [self._config.update(config)]; [None] has no [update]. *)
Definition update_config (u : config_update) : method unit :=
  fun self w =>
    match _config self with
    | None => (Raise AttributeError, self, w)
    | Some c =>
        (Ok tt, {| _config := Some (dict_update c u); _result := _result self |}, w)
    end.

(** The dict [{'target_im': im}]. *)
Definition only_target_im (im : pyimage) : config_update :=
  {| u_target_im := Some im; u_segment := None; u_segment_color := None;
     u_crop := None; u_nrow := None; u_offset := None; u_background := None;
     u_margins := None; u_cmap := None; u_thickness := None |}.

(** The wrapper and the world a method leaves behind, and its outcome. *)
Definition wrapper_after {A} (r : result A * draw_grid_wrapper * world)
  : draw_grid_wrapper := snd (fst r).

Definition world_after {A} (r : result A * draw_grid_wrapper * world) : world :=
  snd r.

Definition outcome {A} (r : result A * draw_grid_wrapper * world) : result A :=
  fst (fst r).

(** The configuration dict once ['target_im'] has been popped. *)
Definition without_target_im (c : config) : config :=
  {| target_im := None; segment := segment c;
     segment_color := segment_color c; options := options c |}.

(** The configuration dict with ['target_im'] set to [im]. *)
Definition with_target_im (im : pyimage) (c : config) : config :=
  {| target_im := Some im; segment := segment c;
     segment_color := segment_color c; options := options c |}.

(** A wrapper configured with a volume, masks and colours, offset 0 and
    the defaults otherwise. *)
Definition configured (im : pyimage) (ss : option (list pyimage))
    (cs : option (list pycolor)) : draw_grid_wrapper :=
  {| _config := Some {| target_im := Some im; segment := ss;
                        segment_color := cs; options := offset0 |};
     _result := None |}.

(** The grid image of [vol 2 2 2] under the stand-in libraries. *)
Definition composed_2x2x2 : tensor Z :=
  Eval vm_compute in
    match fst (draw_grid Reference.opencv3 (NdArray (vol 2 2 2)) offset0 w0) with
    | Ok im => im
    | Raise _ => black_grid
    end.

(** ** Geometry *)

(** Two outcomes agree in geometry: both are tensors of the same shape, or
    both are the same exception. *)
Definition same_geometry {A C} (r1 : result (tensor A)) (r2 : result (tensor C))
  : Prop :=
  match r1, r2 with
  | Ok a, Ok b => shape a = shape b
  | Raise e1, Raise e2 => e1 = e2
  | _, _ => False
  end.

(** ** [ngv_io_reader_wrapper]: reading, iterating, running *)

(** A signal a worker emits, with its argument. *)
Inductive signal : Type :=
| UpdateProgress (value : Z)
| UpdateViewList (key : string)
| DisplayMsg (text : string).

Module ReaderThread.

Section Methods.

(** The reader class of [ngv_io/reader.py], as far as the wrapper uses it:
    [len(reader)], [reader._read_file(i)] (which may change the reader and
    may raise), [list(reader._files.keys())], and the pairs the reader
    yields when iterated. *)
Variable reader : Type.
Variable reader_len : reader -> nat.
Variable _read_file : reader -> nat -> result reader.
Variable file_keys : reader -> list string.
Variable reader_items : reader -> list (string * pyimage).

(** A method of the wrapper: it may fail, it may change the reader, and it
    emits signals. *)
Definition method (A : Type) : Type :=
  ngv_io_reader_wrapper reader -> list signal ->
  result A * ngv_io_reader_wrapper reader * list signal.

(** The [for i in range(len(self._reader))] loop of [read_all_targets]. *)
Fixpoint read_loop (l : nat) (indices : list nat) (r : reader)
    (emitted : list signal) : result unit * reader * list signal :=
  match indices with
  | [] => (Ok tt, r, emitted)
  | i :: rest =>
      match _read_file r i with
      | Raise e => (Raise e, r, emitted)
      | Ok r' =>
          let emitted :=
            emitted ++ [UpdateProgress ((100 * Z.of_nat i) / Z.of_nat l)] in
          match nth_error (file_keys r') i with
          | None => (Raise IndexError, r', emitted)
          | Some key => read_loop l rest r' (emitted ++ [UpdateViewList key])
          end
      end
  end.

(** [read_all_targets]: the assertion that a reader is configured, the
    loop, and ["Ready."]. *)
Definition read_all_targets : method unit :=
  fun self emitted =>
    match _reader self with
    | None => (Raise AssertionError, self, emitted)
    | Some r =>
        let l := reader_len r in
        match read_loop l (seq 0 (reader_len r)) r emitted with
        | (Ok _, r', emitted') =>
            (Ok tt, {| _reader := Some r' |},
             emitted' ++ [DisplayMsg "Ready."])
        | (Raise e, r', emitted') =>
            (Raise e, {| _reader := Some r' |}, emitted')
        end
    end.

(** [run]: [read_all_targets] inside a [try] whose bare [except] emits the
    error message. *)
Definition run : method unit :=
  fun self emitted =>
    match read_all_targets self emitted with
    | (Raise _, self', emitted') =>
        (Ok tt, self', emitted' ++ [DisplayMsg "Reader encounters error..."])
    | done => done
    end.

(** The [for i, (key, im) in enumerate(self._reader)] loop of [__iter__],
    run to exhaustion: the pairs yielded, the exception that ended the
    iteration if any, and the signals emitted. *)
Fixpoint iter_loop (N : nat) (i : nat) (items : list (string * pyimage))
    (emitted : list signal)
  : list (string * pyimage) * option exn * list signal :=
  match items with
  | [] => ([], None, emitted)
  | (key, im) :: rest =>
      if (N =? 0)%nat then ([], Some ZeroDivisionError, emitted)
      else
        let emitted :=
          emitted ++ [UpdateProgress ((100 * Z.of_nat i) / Z.of_nat N);
                      DisplayMsg ("Handling: " ++ key)] in
        match iter_loop N (S i) rest emitted with
        | (yielded, stop, emitted') => ((key, im) :: yielded, stop, emitted')
        end
  end.

(** [__iter__]; [len(None)] raises [TypeError]. *)
Definition __iter__ (self : ngv_io_reader_wrapper reader)
    (emitted : list signal)
  : list (string * pyimage) * option exn * list signal :=
  match _reader self with
  | None => ([], Some TypeError, emitted)
  | Some r => iter_loop (reader_len r) 0 (reader_items r) emitted
  end.

End Methods.

End ReaderThread.

(** The signals of reading file [i] of [l] whose key is [key]. *)
Definition read_signals (l : nat) (ik : nat * string) : list signal :=
  [UpdateProgress ((100 * Z.of_nat (fst ik)) / Z.of_nat l);
   UpdateViewList (snd ik)].

(** The signals of yielding item [i] of [N] whose key is [key]. *)
Definition handling_signals (N : nat) (ik : nat * (string * pyimage))
  : list signal :=
  [UpdateProgress ((100 * Z.of_nat (fst ik)) / Z.of_nat N);
   DisplayMsg ("Handling: " ++ fst (snd ik))].

(** A signal emitted while files are read: a progress value from 0 to 99 or
    a key for the view list, never a status message. *)
Definition reading_signal (s : signal) : Prop :=
  match s with
  | UpdateProgress v => 0 <= v < 100
  | UpdateViewList _ => True
  | DisplayMsg _ => False
  end.

(** A reader that holds its file names and reads every file but those at
    the given indices. *)
Definition list_reader_read (bad : list nat) (r : list string) (i : nat)
  : result (list string) :=
  if existsb (Nat.eqb i) bad then Raise ValueError else Ok r.

(** ** The main window's slots for the reader's signals *)

Module MainWindow.

(** What the slots touch: the progress bar (enabled, value; its range is
    0 to 100) and the message of the status bar. *)
Record ui : Type := mkUi {
  progress_enabled : bool;
  progress_value : Z;
  status_message : string
}.

(** [QProgressBar.setValue]: a value outside the range changes nothing. *)
Definition setValue (v : Z) (u : ui) : ui :=
  if (0 <=? v) && (v <=? 100)
  then {| progress_enabled := progress_enabled u; progress_value := v;
          status_message := status_message u |}
  else u.

Definition showMessage (s : string) (u : ui) : ui :=
  {| progress_enabled := progress_enabled u;
     progress_value := progress_value u; status_message := s |}.

(** [_update_progress(val)]. *)
Definition _update_progress (val : Z) (u : ui) : ui :=
  let u := {| progress_enabled := true; progress_value := progress_value u;
              status_message := status_message u |} in
  let u := setValue val u in
  if val =? 100 then showMessage "Ready." u else u.

(** [_show_message(s)]. *)
Definition _show_message (s : string) (u : ui) : ui := showMessage s u.

(** The connections made in [__init__] for [io_reader_worker]:
    [update_progress] to [_update_progress], [display_msg] to
    [_show_message]; nothing is connected to [update_view_list]. *)
Definition deliver (u : ui) (s : signal) : ui :=
  match s with
  | UpdateProgress v => _update_progress v u
  | DisplayMsg text => _show_message text u
  | UpdateViewList _ => u
  end.

(** The window after [__init__]: the bar at 100, the status 'Ready.'. *)
Definition initial : ui :=
  {| progress_enabled := true; progress_value := 100;
     status_message := "Ready." |}.

End MainWindow.

(** ** [ngv_logger] *)

Module Logger.

(** The message types of Qt that [qt_message_handler] tells apart; anything
    else is [OtherMsg]. *)
Inductive QtMsgType : Type :=
| QtDebugMsg | QtWarningMsg | QtCriticalMsg | QtFatalMsg | QtInfoMsg
| OtherMsg.

(** The levels of [logging]. *)
Definition DEBUG : Z := 10.
Definition INFO : Z := 20.
Definition WARNING : Z := 30.
Definition CRITICAL : Z := 50.
Definition FATAL : Z := CRITICAL.

(** An argument of [Logger.log]: an integer or a string. *)
Inductive pyarg : Type :=
| PyInt (n : Z)
| PyStr (s : string).

Record log_record : Type := mkRecord {
  levelno : Z;
  msg : pyarg
}.

(** The logger: the level from which it records (its effective level) and
    the records it has written. *)
Record logger : Type := mkLogger {
  effective_level : Z;
  records : list log_record
}.

(** [Logger.log(level, msg)] of the standard library: a level that is not
    an integer raises [TypeError] ([logging.raiseExceptions] is true by
    default) or is dropped; an integer level is recorded when the logger is
    enabled for it. *)
Definition Logger_log (raiseExceptions : bool) (level m : pyarg) (lg : logger)
  : result unit * logger :=
  match level with
  | PyInt n =>
      if effective_level lg <=? n
      then (Ok tt, {| effective_level := effective_level lg;
                      records := records lg ++ [{| levelno := n; msg := m |}] |})
      else (Ok tt, lg)
  | PyStr _ => if raiseExceptions then (Raise TypeError, lg) else (Ok tt, lg)
  end.

(** [global_log(msg, level=logging.DEBUG, ...)]:
    [ngv_logger.logger.log(level, msg, ...)]. *)
Definition global_log (raiseExceptions : bool) (m : pyarg) (level : pyarg)
    (lg : logger) : result unit * logger :=
  Logger_log raiseExceptions level m lg.

(** The [if]/[elif] chain of [qt_message_handler]. *)
Definition qt_level (mode : QtMsgType) : Z :=
  match mode with
  | QtInfoMsg => INFO
  | QtDebugMsg => DEBUG
  | QtWarningMsg => WARNING
  | QtCriticalMsg => CRITICAL
  | QtFatalMsg => FATAL
  | OtherMsg => DEBUG
  end.

(** [qt_message_handler(mode, context, message)]: the chain, then
    [ngv_logger.global_log(mode, message)], whose first parameter is [msg]
    and whose second is [level]. *)
Definition qt_message_handler (raiseExceptions : bool) (mode : QtMsgType)
    (message : string) (lg : logger) : result unit * logger :=
  global_log raiseExceptions (PyInt (qt_level mode)) (PyStr message) lg.

End Logger.

(** ** The OpenCV the composer is written for *)



(** A configuration with offset 0 whose background fill value is more than
    a byte holds. *)
Definition overflowing_background : kwargs :=
  {| crop := None; nrow := None; offset := Some 0; background := 300;
     margins := 1; cmap := None; thickness := 2 |}.

(** ** The array behind [im_grid]

    [cv2.drawContours] draws into the array it is given and
    [draw_grid_contour] returns that same array: the caller's variable and
    the returned value name one object.  The caller's arrays are kept in a
    store, by address. *)
Definition store : Type := nat -> tensor Z.

Definition assign (s : store) (a : nat) (v : tensor Z) : store :=
  fun b => if (b =? a)%nat then v else s b.

(** [draw_grid_contour] on the array at address [a]: the mask is tiled and
    its contours are found (lines 127-169); inside the [try] the colour is
    evaluated and the contours are drawn into the array; the handler prints
    the exception; the address handed in is returned. *)
Definition draw_grid_contour_at (B : Backend) (a : nat) (seg : pyimage)
    (color : pycolor) (kw : kwargs) (s : store) (w : world)
  : result nat * store * world :=
  match find_contours B seg kw with
  | Raise e => (Raise e, s, w)
  | Ok contours =>
      match (rgb <- getRgb3 color ;;
             drawContours B (s a) contours (-1) rgb (thickness kw)) with
      | Ok drawn => (Ok a, assign s a drawn, w)
      | Raise e => (Ok a, s, snd (print e w))
      end
  end.

(** What a call on the store returns, and the store and the world it leaves
    behind. *)
Definition returned (r : result nat * store * world) : result nat :=
  fst (fst r).

Definition store_after (r : result nat * store * world) : store :=
  snd (fst r).

Definition world_left (r : result nat * store * world) : world := snd r.


(** A store holding a black grid at every address. *)
Definition black_store : store := fun _ => black_grid.

(** ** Pixels of the composed image *)










(** * Properties *)

(** Settles the integer comparisons in the goal whose outcome [lia] can
    decide. *)
Ltac zbool :=
  repeat match goal with
  | |- context [?a <? ?b] =>
      first [ replace (a <? b) with true by (symmetry; apply Z.ltb_lt; lia)
            | replace (a <? b) with false by (symmetry; apply Z.ltb_ge; lia) ]
  | |- context [?a <=? ?b] =>
      first [ replace (a <=? b) with true by (symmetry; apply Z.leb_le; lia)
            | replace (a <=? b) with false by (symmetry; apply Z.leb_gt; lia) ]
  | |- context [?a =? ?b] =>
      first [ replace (a =? b) with true by (symmetry; apply Z.eqb_eq; lia)
            | replace (a =? b) with false by (symmetry; apply Z.eqb_neq; lia) ]
  end.

(** ** The offset step *)

Lemma assert_offset_None : assert_offset None = Raise TypeError.
Proof. reflexivity. Qed.

Lemma assert_offset_nonneg (k : Z) : 0 <= k -> assert_offset (Some k) = Ok tt.
Proof.
  intros Hk. unfold assert_offset, py_ge, rbind. now zbool.
Qed.

Lemma assert_offset_neg (p : positive) :
  assert_offset (Some (Z.neg p)) = Raise AssertionError.
Proof. reflexivity. Qed.

(** C3, at the failing inputs.  With the offset left unspecified ([None],
    the default of both signatures) the assertion
    [offset >= 0 or offset is None] compares [None] with [0] first, so
    [draw_grid] and [draw_grid_contour] raise [TypeError] whatever the other
    arguments are.  A negative offset fails the assertion itself.  And a
    volume of depth 1 fails at the padding even with offset 0, because
    [squeeze] has removed its depth axis. *)
Theorem offset_unspecified_raises :
  forall (B : Backend) (image seg : pyimage) (im_grid : tensor Z)
         (color : pycolor) (kw : kwargs) (w : world),
    draw_grid B image (with_offset None kw) w = (Raise TypeError, w)
    /\ draw_grid_contour B im_grid seg color (with_offset None kw) w
       = (Raise TypeError, w)
    /\ (forall p : positive,
          draw_grid B image (with_offset (Some (Z.neg p)) kw) w
          = (Raise AssertionError, w)
          /\ draw_grid_contour B im_grid seg color
               (with_offset (Some (Z.neg p)) kw) w
             = (Raise AssertionError, w))
    /\ draw_grid B (NdArray (vol 1 2 2)) (with_offset (Some 0) kw) w
       = (Raise TorchError, w).
Proof.
  intros B image seg im_grid color kw w.
  repeat split; reflexivity.
Qed.

Lemma squeeze_no_singleton {A} (d h w : nat) (l : list A) :
  d <> 1%nat -> h <> 1%nat -> w <> 1%nat ->
  squeeze (mkTensor [d; h; w] l) = mkTensor [d; h; w] l.
Proof.
  intros Hd Hh Hw. unfold squeeze. simpl.
  apply Nat.eqb_neq in Hd, Hh, Hw. now rewrite Hd, Hh, Hw.
Qed.

Lemma offset_step_3d (l : list Z) (d h w : nat) (k : Z) :
  d <> 1%nat -> h <> 1%nat -> w <> 1%nat -> 0 <= k ->
  offset_step (Some k) (mkTensor [d; h; w] l)
  = Ok (mkTensor [(Z.to_nat k + d)%nat; h; w]
          (repeat 0 (Z.to_nat k * h * w) ++ firstn (d * h * w) l)).
Proof.
  intros Hd Hh Hw Hk.
  unfold offset_step. rewrite squeeze_no_singleton by assumption.
  unfold ConstantPad3d_front, dim. simpl shape. simpl data.
  cbn [List.length Nat.sub skipn firstn numel fold_right app chunks flat_map].
  zbool. rewrite app_nil_r. do 2 f_equal. f_equal. lia.
Qed.

(** On a volume without an axis of extent 1, a non-negative offset [k]
    prepends exactly [k] zero-filled slices along the depth axis. *)
Lemma offset_step_prepend (V : tensor Z) (d h w : nat) (k : Z) :
  shape V = [d; h; w] -> wf V ->
  d <> 1%nat -> h <> 1%nat -> w <> 1%nat -> 0 <= k ->
  offset_step (Some k) V = Ok (prepend_zero_slices (Z.to_nat k) V).
Proof.
  intros Hs Hwf Hd Hh Hw Hk.
  destruct V as [s l]. simpl in Hs. subst s.
  unfold wf in Hwf. simpl in Hwf.
  rewrite offset_step_3d by assumption.
  unfold prepend_zero_slices. cbn [shape data].
  rewrite firstn_all2 by lia. reflexivity.
Qed.

Lemma wf_prepend (V : tensor Z) (d h w k : nat) :
  shape V = [d; h; w] -> wf V -> wf (prepend_zero_slices k V).
Proof.
  intros Hs Hwf. unfold wf, prepend_zero_slices in *. rewrite Hs in *.
  simpl in *. rewrite length_app, repeat_length, Hwf. lia.
Qed.

Lemma prepend_zero (V : tensor Z) (d h w : nat) :
  shape V = [d; h; w] -> prepend_zero_slices 0 V = V.
Proof.
  intros Hs. unfold prepend_zero_slices. rewrite Hs. destruct V; simpl in *.
  now subst.
Qed.

(** Away from volumes with an axis of extent 1, the offset is the same as
    prepending the slices beforehand. *)
Lemma draw_grid_offset_prepend (B : Backend) (V : tensor Z) (d h w : nat)
    (k : Z) (kw : kwargs) (wd : world) :
  shape V = [d; h; w] -> wf V ->
  (2 <= d)%nat -> h <> 1%nat -> w <> 1%nat -> 0 <= k ->
  draw_grid B (NdArray V) (with_offset (Some k) kw) wd
  = draw_grid B (NdArray (prepend_zero_slices (Z.to_nat k) V))
      (with_offset (Some 0) kw) wd.
Proof.
  intros Hs Hwf Hd Hh Hw Hk.
  assert (Hs' : shape (prepend_zero_slices (Z.to_nat k) V)
                = [(Z.to_nat k + d)%nat; h; w]).
  { unfold prepend_zero_slices. now rewrite Hs. }
  unfold draw_grid, lift. f_equal. cbn [offset with_offset].
  rewrite (assert_offset_nonneg Hk), (@assert_offset_nonneg 0) by lia.
  cbn [rbind as_tensor]. unfold prepare. cbn [offset with_offset].
  rewrite (offset_step_prepend Hs Hwf) by (assumption || lia).
  rewrite (offset_step_prepend Hs' (wf_prepend (Z.to_nat k) Hs Hwf))
    by (assumption || lia).
  cbn [Z.to_nat]. erewrite prepend_zero by exact Hs'. reflexivity.
Qed.

(** C5, at the failing input.  A volume of depth 1 loses its depth axis in
    [squeeze], so with offset 1 the padding of [draw_grid] meets a tensor of
    two axes and raises, whatever the libraries and the other arguments;
    the same volume with one zero slice prepended passes the offset step
    unchanged under offset 0 and is composed into an image. *)
Theorem offset_differs_from_prepending_on_depth_one :
  forall (B : Backend) (kw : kwargs) (w : world),
    draw_grid B (NdArray (vol 1 2 2)) (with_offset (Some 1) kw) w
    = (Raise TorchError, w)
    /\ offset_step (Some 0) (prepend_zero_slices 1 (vol 1 2 2))
       = Ok (prepend_zero_slices 1 (vol 1 2 2))
    /\ exists im : tensor Z,
         draw_grid Reference.opencv3
           (NdArray (prepend_zero_slices 1 (vol 1 2 2)))
           (with_offset (Some 0) default_kwargs) w
         = (Ok im, w).
Proof.
  intros B kw w. split; [reflexivity | split; [reflexivity |]].
  eexists. unfold draw_grid, lift. f_equal. vm_compute. reflexivity.
Qed.

(** ** The crop step *)

Lemma lower_bounds_nonneg (c : crop_spec) :
  Forall (fun l => 0 <= l) (lower_bounds c).
Proof.
  unfold lower_bounds. apply Forall_map, Forall_forall.
  intros cs _. lia.
Qed.

(** Every upper bound is capped by the entry of [im_shape[1:]] at the same
    position: the first by [im_shape[1]], the second by [im_shape[2]]. *)
Lemma upper_bounds_capped (c : crop_spec) (im_shape : list nat) (i : nat)
    (u : Z) :
  nth_error (upper_bounds c im_shape) i = Some u ->
  exists m : nat, nth_error (tl im_shape) i = Some m /\ u <= Z.of_nat m.
Proof.
  unfold upper_bounds.
  generalize (combine (lower_bounds c) (size c)) as ls.
  generalize (tl im_shape) as ms. clear.
  intros ms ls. revert ms i.
  induction ls as [|x ls IH]; intros ms i H.
  - destruct i; discriminate.
  - destruct ms as [|m ms]; [destruct i; discriminate|].
    destruct i as [|i]; simpl in H.
    + injection H as <-. exists m. split; [reflexivity | simpl; lia].
    + apply IH in H. exact H.
Qed.

(** C1, at the failing input.  The crop runs after the channel axis was
    inserted, so [im_shape[1:]] is (1, H, W): the bound of the first spatial
    axis is capped by the channel count and the bound of the second by the
    extent of the first.  On a volume 2 x 3 x 2 with centre (1, 1) and size
    (4, 4) the upper bound used on the axis of extent 2 is 3, and a single row
    of the three survives. *)
Theorem crop_upper_bound_exceeds_axis :
  let c := mkCrop [1; 1] [4; 4] in
  let kw := {| crop := Some c; nrow := None; offset := Some 0;
               background := 0; margins := 1; cmap := None; thickness := 2 |} in
  (image <- offset_step (offset kw) (vol 2 3 2) ;; channel_step image)
  = Ok (mkTensor [2; 1; 3; 2]%nat (data (vol 2 3 2)))
  /\ lower_bounds c = [0; 0]
  /\ upper_bounds c [2; 1; 3; 2]%nat = [1; 3]
  /\ Z.of_nat 2 < 3
  /\ prepare kw (vol 2 3 2) = Ok (mkTensor [2; 1; 1; 2]%nat [1; 2; 7; 8], 2).
Proof.
  cbv zeta. repeat split; vm_compute; reflexivity.
Qed.

(** ** The reader wrapper *)

(** C10.  Without a reader the indexed lookup returns [None] and raises
    nothing; with a reader it is the reader's own lookup, value or
    exception. *)
Theorem getitem_without_and_with_reader :
  forall (reader : Type) (reader_getitem : reader -> string -> result pyimage)
         (item : string),
    __getitem__ reader_getitem (mkReaderWrapper None) item = Ok PyNone
    /\ forall r : reader,
         __getitem__ reader_getitem (mkReaderWrapper (Some r)) item
         = reader_getitem r item.
Proof.
  intros reader reader_getitem item. split; [reflexivity | intros r; reflexivity].
Qed.

(** ** Failures in [draw_grid_contour] *)



(** The fill value fits the element type of the mask: the mask is tiled as
    [make_grid] lays it out. *)
Lemma make_grid_raw_fits (dt : dtype) (seg : tensor Z)
    (nrow padding pad_value : Z) :
  representable dt pad_value = true ->
  make_grid_raw dt seg nrow padding pad_value
  = make_grid_tiles (cat3 seg) nrow padding pad_value.
Proof.
  intros H. unfold make_grid_raw.
  destruct (make_grid_tiles (cat3 seg) nrow padding pad_value) as [g | e];
    cbn [rbind]; [|reflexivity].
  rewrite H. destruct (shape (cat3 seg)) as [|[|[|b]] rest]; reflexivity.
Qed.

Lemma make_grid_raw_Ok (dt : dtype) (seg g : tensor Z)
    (nrow padding pad_value : Z) :
  make_grid_raw dt seg nrow padding pad_value = Ok g ->
  make_grid_tiles (cat3 seg) nrow padding pad_value = Ok g.
Proof.
  unfold make_grid_raw.
  destruct (make_grid_tiles (cat3 seg) nrow padding pad_value) as [g' | e];
    cbn [rbind]; [|discriminate].
  destruct (shape (cat3 seg)) as [|[|[|b]] rest];
    try destruct (representable dt pad_value); congruence.
Qed.






(** ** Purity *)

Lemma world_eta (w : world) :
  {| stdout := stdout w ++ []; display_msg := display_msg w |} = w.
Proof. destruct w. simpl. now rewrite app_nil_r. Qed.






(** In-place drawing, run: a mask with foreground drawn in yellow into the
    black grid at address 0 changes that array and no other, and the call
    returns address 0. *)
Lemma draw_grid_contour_at_draws_in_place :
  let r := draw_grid_contour_at Reference.opencv3 0 (NdArray (vol 2 2 2))
             yellow offset0 black_store w0 in
  returned r = Ok 0%nat
  /\ store_after r 0%nat <> black_grid
  /\ store_after r 1%nat = black_grid
  /\ world_left r = w0.
Proof.
  cbv zeta. repeat split; try (vm_compute; reflexivity).
  vm_compute. discriminate.
Qed.

(** ** [draw_grid_wrapper.run] *)

Lemma draw_grid_None (B : Backend) (kw : kwargs) (k : Z) (w : world) :
  offset kw = Some k -> 0 <= k ->
  draw_grid B PyNone kw w = (Raise AttributeError, w).
Proof.
  intros Ho Hk. unfold draw_grid, lift. rewrite Ho.
  rewrite (assert_offset_nonneg Hk). reflexivity.
Qed.

(** C7, the claim as stated fails: when the configuration has no
    ['target_im'] entry, [pop] raises [KeyError]; the only handler is for
    [AttributeError], so the exception leaves [run] and nothing is emitted. *)
Lemma run_missing_target_raises :
  run Reference.opencv3 no_target w0 = (Raise KeyError, no_target, w0).
Proof. reflexivity. Qed.

(** C7, amended.  A missing ['target_im'] entry makes [run] raise
    [KeyError] to its caller without any message.  An entry that is present
    but [None], together with a non-negative offset, is reported as
    "Wrong drawing configuration" on [display_msg]; no exception leaves
    [run], the entry is consumed and no result is stored. *)
Theorem run_reports_attribute_errors_only :
  forall (B : Backend) (self : draw_grid_wrapper) (c : config) (w : world),
    _config self = Some c ->
    (target_im c = None -> run B self w = (Raise KeyError, self, w))
    /\ (forall k : Z,
          target_im c = Some PyNone ->
          offset (options c) = Some k -> 0 <= k ->
          run B self w
          = (Ok tt,
             {| _config := Some {| target_im := None; segment := segment c;
                                   segment_color := segment_color c;
                                   options := options c |};
                _result := _result self |},
             {| stdout := stdout w;
                display_msg := display_msg w
                               ++ ["Wrong drawing configuration"%string] |})).
Proof.
  intros B self c w Hc. split.
  - intros Ht. unfold run, run_body, pop_target_im. rewrite Hc, Ht.
    reflexivity.
  - intros k Ht Ho Hk. unfold run, run_body, pop_target_im. rewrite Hc, Ht.
    cbn [options]. rewrite draw_grid_None with (k := k) by assumption.
    reflexivity.
Qed.

(** Both cases, run on a configuration without the entry and on one whose
    entry is [None]. *)
Lemma run_reports_attribute_errors_only_witness :
  run Reference.opencv3 no_target w0 = (Raise KeyError, no_target, w0)
  /\ run Reference.opencv3 none_target w0
     = (Ok tt, no_target,
        {| stdout := [];
           display_msg := ["Wrong drawing configuration"%string] |}).
Proof.
  split.
  - apply (proj1 (run_reports_attribute_errors_only Reference.opencv3
                    no_target w0 eq_refl)).
    reflexivity.
  - apply (proj2 (run_reports_attribute_errors_only Reference.opencv3
                    none_target w0 eq_refl) 0).
    + reflexivity.
    + reflexivity.
    + lia.
Defined.

(** ** Geometry of the tiling *)

Lemma ceil_sqrt_spec (n : Z) :
  0 < n -> (ceil_sqrt n - 1) * (ceil_sqrt n - 1) < n <= ceil_sqrt n * ceil_sqrt n.
Proof.
  intros Hn. unfold ceil_sqrt.
  pose proof (Z.sqrt_spec n ltac:(lia)) as Hs. cbv zeta in Hs.
  pose proof (Z.sqrt_nonneg n) as H0.
  destruct (Z.sqrt n * Z.sqrt n =? n) eqn:E.
  - apply Z.eqb_eq in E. nia.
  - apply Z.eqb_neq in E. nia.
Qed.

Lemma ceil_sqrt_bounds (n : Z) : 1 <= n -> 1 <= ceil_sqrt n <= n.
Proof.
  intros Hn. unfold ceil_sqrt.
  pose proof (Z.sqrt_spec n ltac:(lia)) as Hs. cbv zeta in Hs.
  pose proof (Z.sqrt_nonneg n) as H0.
  destruct (Z.sqrt n * Z.sqrt n =? n) eqn:E.
  - apply Z.eqb_eq in E. nia.
  - apply Z.eqb_neq in E. nia.
Qed.



(** Without a crop, what [make_grid] receives: the padded volume with a
    channel axis, and the configured column count or [ceil(sqrt(depth))] of
    the padded depth. *)
Lemma prepare_no_crop (kw : kwargs) (l : list Z) (d h w : nat) (k : Z) :
  d <> 1%nat -> h <> 1%nat -> w <> 1%nat ->
  offset kw = Some k -> 0 <= k -> crop kw = None ->
  prepare kw (mkTensor [d; h; w] l)
  = Ok (mkTensor [(Z.to_nat k + d)%nat; 1%nat; h; w]
          (repeat 0 (Z.to_nat k * h * w) ++ firstn (d * h * w) l),
        match nrow kw with
        | Some n => n
        | None => ceil_sqrt (Z.of_nat (Z.to_nat k + d))
        end).
Proof.
  intros Hd Hh Hw Ho Hk Hc. unfold prepare. rewrite Ho, Hc.
  rewrite offset_step_3d by assumption.
  cbn [rbind]. unfold channel_step, dim. cbn [shape List.length Nat.eqb].
  unfold unsqueeze1. cbn [shape data rbind].
  unfold nrow_step, len. destruct (nrow kw); reflexivity.
Qed.

Lemma cat3_shape {A} (l : list A) (b h w : nat) :
  shape (cat3 (mkTensor [b; 1%nat; h; w] l)) = [b; 3%nat; h; w].
Proof. reflexivity. Qed.

Lemma cat3_data {A} (l : list A) (b h w : nat) :
  data (cat3 (mkTensor [b; 1%nat; h; w] l))
  = flat_map (fun c => c ++ c ++ c) (chunks (h * w) b l).
Proof. reflexivity. Qed.

Lemma make_grid_tiles_shape {A} (t : tensor A) (b c h w : nat)
    (nrow padding : Z) (pad_value : A) :
  shape t = [b; c; h; w] -> b <> 1%nat ->
  0 < Z.min nrow (Z.of_nat b) -> 0 <= padding ->
  exists g : tensor A,
    make_grid_tiles t nrow padding pad_value = Ok g
    /\ shape g
       = [c;
          ((h + Z.to_nat padding)
           * Z.to_nat ((Z.of_nat b + Z.min nrow (Z.of_nat b) - 1)
                       / Z.min nrow (Z.of_nat b))
           + Z.to_nat padding)%nat;
          ((w + Z.to_nat padding) * Z.to_nat (Z.min nrow (Z.of_nat b))
           + Z.to_nat padding)%nat].
Proof.
  intros Hs Hb Hx Hp. unfold make_grid_tiles. rewrite Hs.
  apply Nat.eqb_neq in Hb. rewrite Hb.
  unfold grid_layout. zbool. cbn [rbind fst snd]. zbool.
  eexists. split; reflexivity.
Qed.

Lemma permute_hwc_shape {A} (dflt : A) (t : tensor A) (c h w : nat) :
  shape t = [c; h; w] ->
  exists g : tensor A, permute_hwc dflt t = Ok g /\ shape g = [h; w; c].
Proof.
  intros Hs. unfold permute_hwc. rewrite Hs. eexists. split; reflexivity.
Qed.

Lemma chunks_first_nonempty {A} (n c : nat) (l : list A) :
  (0 < n)%nat -> (0 < c)%nat -> l <> [] ->
  flat_map (fun x => x ++ x ++ x) (chunks n c l) <> [].
Proof.
  intros Hn Hc Hl. destruct c as [|c]; [lia|].
  destruct l as [|a l]; [congruence|].
  destruct n as [|n]; [lia|]. simpl. discriminate.
Qed.

(** ** The column count *)

(** C6, the claim as stated fails: [make_grid] lays out [min(nrow, depth)]
    columns.  Two slices of 2 x 2 with a margin of 1 and the column count set
    to 3 give an image 7 pixels wide (two cells), not the 10 pixels of three
    cells. *)
Lemma explicit_column_count_capped_by_depth :
  exists im : tensor Z,
    draw_grid Reference.opencv3 (NdArray (vol 2 2 2))
      (with_nrow (Some 3) offset0) w0
    = (Ok im, w0)
    /\ shape im = [4; 7; 3]%nat
    /\ ~ has_columns 3 2 1 im.
Proof.
  eexists. split; [| split].
  - unfold draw_grid, lift. f_equal. vm_compute. reflexivity.
  - reflexivity.
  - unfold has_columns. simpl. lia.
Qed.

(** C6, amended.  For a volume D x H x W with every extent at least 2, a
    non-negative offset k, a non-negative margin, no crop and the default
    colormap, and a normalisation that succeeds on non-empty data,
    [draw_grid] returns an image that has [ceil(sqrt(D + k))] columns when
    the column count is unset, and [min(n, D + k)] columns when it is set to
    n >= 1. *)
Theorem grid_column_count :
  forall (B : Backend) (V : tensor Z) (d h w : nat) (k : Z) (kw : kwargs)
         (wd : world),
    shape V = [d; h; w] -> wf V ->
    (2 <= d)%nat -> (2 <= h)%nat -> (2 <= w)%nat ->
    offset kw = Some k -> 0 <= k -> 0 <= margins kw ->
    crop kw = None ->
    (cmap kw = None \/ cmap kw = Some "Default"%string) ->
    (forall n : Z, nrow kw = Some n -> 1 <= n) ->
    (forall l : list Z, l <> [] -> exists fl, norm_range B l = Ok fl) ->
    exists im : tensor Z,
      draw_grid B (NdArray V) kw wd = (Ok im, wd)
      /\ has_columns
           match nrow kw with
           | None => ceil_sqrt (Z.of_nat d + k)
           | Some n => Z.min n (Z.of_nat d + k)
           end
           w (Z.to_nat (margins kw)) im.
Proof.
  intros B V d h w k kw wd Hs Hwf Hd Hh Hw Ho Hk Hm Hc Hcm Hn Hnorm.
  destruct V as [s l]. simpl in Hs. subst s. unfold wf in Hwf. simpl in Hwf.
  unfold draw_grid, lift. rewrite Ho, (assert_offset_nonneg Hk).
  cbn [rbind as_tensor].
  rewrite (@prepare_no_crop kw l d h w k) by (assumption || lia).
  cbn [rbind fst snd]. unfold make_grid_normalized.
  rewrite cat3_shape, cat3_data.
  set (b := (Z.to_nat k + d)%nat).
  set (xs := repeat 0 (Z.to_nat k * h * w) ++ firstn (d * h * w) l).
  set (n := match nrow kw with Some n => n | None => ceil_sqrt (Z.of_nat b) end).
  assert (Hxs : xs <> []).
  { subst xs. rewrite firstn_all2 by lia. destruct l; [simpl in Hwf; nia|].
    intros E. apply app_eq_nil in E. destruct E; discriminate. }
  destruct (Hnorm (flat_map (fun c => c ++ c ++ c) (chunks (h * w) b xs)))
    as [fl Hfl].
  { apply chunks_first_nonempty; [nia | lia | exact Hxs]. }
  rewrite Hfl. cbn [rbind].
  assert (Hcols : Z.min n (Z.of_nat b)
                  = match nrow kw with
                    | None => ceil_sqrt (Z.of_nat d + k)
                    | Some n => Z.min n (Z.of_nat d + k)
                    end).
  { subst n b. replace (Z.of_nat (Z.to_nat k + d)) with (Z.of_nat d + k) by lia.
    destruct (nrow kw); [reflexivity|].
    pose proof (@ceil_sqrt_bounds (Z.of_nat d + k) ltac:(lia)). lia. }
  assert (Hpos : 0 < Z.min n (Z.of_nat b)).
  { rewrite Hcols. destruct (nrow kw) as [m|] eqn:En.
    - specialize (Hn m eq_refl). lia.
    - pose proof (@ceil_sqrt_bounds (Z.of_nat d + k) ltac:(lia)). lia. }
  destruct (@make_grid_tiles_shape _ (mkTensor [b; 3%nat; h; w] fl) b 3 h w n
              (margins kw) (to_float B (background kw)) eq_refl
              ltac:(lia) Hpos Hm) as [g [Hg Hgs]].
  rewrite Hg. cbn [rbind].
  destruct (permute_hwc_shape (to_float B 0) g Hgs) as [g' [Hg' Hgs']].
  rewrite Hg'. cbn [rbind].
  eexists. split.
  - f_equal. unfold cmap_step.
    destruct Hcm as [-> | ->]; [reflexivity|]. reflexivity.
  - unfold has_columns. cbn [shape]. rewrite Hgs'. cbn [nth].
    rewrite <- Hcols. lia.
Qed.

(** The stand-in libraries meet the assumptions made about them. *)
Lemma reference_norm_succeeds (l : list Z) :
  l <> [] -> exists fl, norm_range Reference.opencv3 l = Ok fl.
Proof.
  intros Hl. destruct l as [|x l]; [congruence|]. eexists. reflexivity.
Qed.

(** The scenario of the specification (depth 4, offset 2: three columns)
    and an explicit count of 3 on two slices (two columns). *)
Lemma grid_column_count_witness :
  (exists im : tensor Z,
      draw_grid Reference.opencv3 (NdArray (vol 4 2 2))
        (with_offset (Some 2) default_kwargs) w0
      = (Ok im, w0)
      /\ has_columns (ceil_sqrt (Z.of_nat 4 + 2)) 2 1 im)
  /\ ceil_sqrt (Z.of_nat 4 + 2) = 3
  /\ (exists im : tensor Z,
        draw_grid Reference.opencv3 (NdArray (vol 2 2 2))
          (with_nrow (Some 3) offset0) w0
        = (Ok im, w0)
        /\ has_columns (Z.min 3 (Z.of_nat 2 + 0)) 2 1 im).
Proof.
  split; [| split; [reflexivity |]].
  - apply (@grid_column_count Reference.opencv3 (vol 4 2 2) 4 2 2 2
             (with_offset (Some 2) default_kwargs) w0).
    + reflexivity.
    + reflexivity.
    + lia.
    + lia.
    + lia.
    + reflexivity.
    + lia.
    + simpl. lia.
    + reflexivity.
    + left. reflexivity.
    + intros n H. discriminate H.
    + exact reference_norm_succeeds.
  - apply (@grid_column_count Reference.opencv3 (vol 2 2 2) 2 2 2 0
             (with_nrow (Some 3) offset0) w0).
    + reflexivity.
    + reflexivity.
    + lia.
    + lia.
    + lia.
    + reflexivity.
    + lia.
    + simpl. lia.
    + reflexivity.
    + left. reflexivity.
    + intros n H. injection H as <-. lia.
    + exact reference_norm_succeeds.
Defined.

(** ** Overlay of an empty mask *)

Lemma Forall_firstn_ {A} (P : A -> Prop) (n : nat) (l : list A) :
  Forall P l -> Forall P (firstn n l).
Proof.
  intros H. revert n. induction H as [|x l Hx Hl IH]; intros [|n]; simpl;
    constructor; auto.
Qed.

Lemma Forall_skipn_ {A} (P : A -> Prop) (n : nat) (l : list A) :
  Forall P l -> Forall P (skipn n l).
Proof.
  intros H. revert n. induction H as [|x l Hx Hl IH]; intros [|n]; simpl;
    auto.
Qed.

Lemma Forall_chunks {A} (P : A -> Prop) (n c : nat) (l : list A) :
  Forall P l -> Forall (Forall P) (chunks n c l).
Proof.
  revert l. induction c as [|c IH]; intros l H; simpl; constructor.
  - now apply Forall_firstn_.
  - apply IH. now apply Forall_skipn_.
Qed.

Lemma Forall_nth_default {A} (P : A -> Prop) (l : list A) (i : nat) (d : A) :
  P d -> Forall P l -> P (nth i l d).
Proof.
  intros Hd H. destruct (nth_in_or_default i l d) as [Hin | ->]; [|exact Hd].
  rewrite Forall_forall in H. now apply H.
Qed.

Lemma cat3_Forall {A} (P : A -> Prop) (t : tensor A) :
  Forall P (data t) -> Forall P (data (cat3 t)).
Proof.
  intros H. unfold cat3.
  destruct (shape t) as [|b [|[|[|c]] [|h [|w [|? ?]]]]]; try exact H.
  cbn [data]. apply Forall_flat_map.
  eapply Forall_impl; [| apply Forall_chunks; exact H].
  intros c Hc. cbv beta. rewrite !Forall_app. auto.
Qed.

(** Every element of the grid is the pad value or an element of the batch. *)
Lemma make_grid_tiles_Forall {A} (P : A -> Prop) (t g : tensor A)
    (nrow padding : Z) (pad_value : A) :
  make_grid_tiles t nrow padding pad_value = Ok g ->
  P pad_value -> Forall P (data t) -> Forall P (data g).
Proof.
  unfold make_grid_tiles. intros Hg Hp Ht.
  destruct (shape t) as [|b [|c [|h [|w [|? ?]]]]] eqn:Hs; try discriminate.
  destruct (b =? 1)%nat.
  - injection Hg as <-. exact Ht.
  - destruct (grid_layout nrow (Z.of_nat b)) as [xy|]; cbn [rbind] in Hg;
      [|discriminate].
    destruct (padding <? 0); [discriminate|].
    injection Hg as <-. cbn [data].
    apply Forall_flat_map, Forall_forall. intros ch _.
    apply Forall_flat_map, Forall_forall. intros gy _.
    apply Forall_map, Forall_forall. intros gx _.
    unfold grid_pixel.
    destruct (_ || _); [exact Hp|].
    destruct (_ && _); [|exact Hp].
    unfold pixel4. rewrite Hs. now apply Forall_nth_default.
Qed.

(** The tiled mask of an all-zero volume, with background 0, is an all-zero
    image of two axes. *)
Lemma seg_grid_all_zero (seg : pyimage) (V : tensor Z) (d h w : nat) (k : Z)
    (kw : kwargs) :
  seg = NdArray V \/ seg = Tensor V ->
  shape V = [d; h; w] -> all_zero V ->
  (2 <= d)%nat -> h <> 1%nat -> w <> 1%nat ->
  offset kw = Some k -> 0 <= k -> 0 <= margins kw ->
  crop kw = None -> background kw = 0 ->
  (forall n : Z, nrow kw = Some n -> 1 <= n) ->
  exists (g : tensor Z) (gh gw : nat),
    seg_grid seg kw = Ok g /\ shape g = [gh; gw] /\ all_zero g.
Proof.
  intros Hseg Hs Hz Hd Hh Hw Ho Hk Hm Hc Hb Hn.
  destruct V as [s l]. simpl in Hs. subst s. unfold all_zero in Hz.
  simpl in Hz.
  assert (Hl : exists l', as_tensor (seg_tensor seg) = Ok (mkTensor [d; h; w] l')
                          /\ Forall (fun v => v = 0) l').
  { destruct Hseg as [-> | ->]; simpl.
    - eexists. split; [reflexivity|].
      apply Forall_map. eapply Forall_impl; [|exact Hz].
      intros v ->. reflexivity.
    - eexists. split; [reflexivity | exact Hz]. }
  destruct Hl as [l' [Hl' Hz']].
  unfold seg_grid. rewrite Ho, (assert_offset_nonneg Hk). cbn [rbind].
  rewrite Hl'. cbn [rbind].
  rewrite (@prepare_no_crop kw l' d h w k) by (assumption || lia).
  cbn [rbind fst snd]. cbv zeta.
  rewrite make_grid_raw_fits
    by (rewrite Hb; destruct (mask_dtype seg); reflexivity).
  set (b := (Z.to_nat k + d)%nat).
  set (t := mkTensor [b; 1%nat; h; w]
              (repeat 0 (Z.to_nat k * h * w) ++ firstn (d * h * w) l')).
  set (n := match nrow kw with Some n => n | None => ceil_sqrt (Z.of_nat b) end).
  assert (Ht : Forall (fun v => v = 0) (data t)).
  { subst t. cbn [data]. apply Forall_app. split.
    - apply Forall_forall. intros v Hv. now apply repeat_spec in Hv.
    - now apply Forall_firstn_. }
  assert (Hpos : 0 < Z.min n (Z.of_nat b)).
  { subst n b. destruct (nrow kw) as [m|] eqn:En.
    - specialize (Hn m eq_refl). lia.
    - pose proof (@ceil_sqrt_bounds (Z.of_nat (Z.to_nat k + d)) ltac:(lia)).
      lia. }
  destruct (@make_grid_tiles_shape _ (cat3 t) b 3 h w n (margins kw)
              (background kw) eq_refl ltac:(lia) Hpos Hm) as [g [Hg Hgs]].
  rewrite Hg. cbn [rbind].
  assert (Hgz : Forall (fun v => v = 0) (data g)).
  { eapply make_grid_tiles_Forall; [exact Hg | exact Hb |].
    now apply cat3_Forall. }
  unfold first_item. rewrite Hgs. cbn [rbind].
  do 3 eexists. split; [reflexivity|]. split; [reflexivity|].
  unfold all_zero. cbn [data]. apply Forall_map.
  eapply Forall_impl; [| apply Forall_firstn_; exact Hgz].
  intros v ->. reflexivity.
Qed.

(** C4, the claim as stated fails: [make_grid] fills the margins of the
    tiled mask with the background value, so with background 1 an all-zero
    mask yields a non-zero lattice, its contour is found and drawn, and the
    returned image is no longer the base grid. *)
Lemma zero_mask_with_background_is_drawn :
  exists im : tensor Z,
    draw_grid_contour Reference.opencv3 black_grid (NdArray (zero_mask 2 2 2))
      yellow white_margins w0
    = (Ok im, w0)
    /\ all_zero (zero_mask 2 2 2)
    /\ im <> black_grid.
Proof.
  eexists. split; [| split].
  - vm_compute. reflexivity.
  - unfold all_zero, zero_mask. cbn [data].
    apply Forall_forall. intros v Hv. now apply repeat_spec in Hv.
  - discriminate.
Qed.

(** C4, amended.  For every base grid image, every all-zero mask volume
    D x H x W with D >= 2 and no extent equal to 1, every colour, stroke
    thickness and margin width, a non-negative offset, a column count unset
    or at least 1, no crop and background fill value 0,
    [draw_grid_contour] returns the base grid image unchanged, given an
    OpenCV that finds no contour in an all-zero image and changes nothing
    when it draws an empty list of contours. *)
Theorem zero_mask_leaves_grid_unchanged :
  forall (B : Backend) (im_grid : tensor Z) (seg : pyimage) (V : tensor Z)
         (d h w : nat) (k : Z) (color : pycolor) (kw : kwargs) (wd : world),
    seg = NdArray V \/ seg = Tensor V ->
    shape V = [d; h; w] -> all_zero V ->
    (2 <= d)%nat -> h <> 1%nat -> w <> 1%nat ->
    offset kw = Some k -> 0 <= k -> 0 <= margins kw ->
    crop kw = None -> background kw = 0 ->
    (forall n : Z, nrow kw = Some n -> 1 <= n) ->
    (forall (g : tensor Z) (gh gw : nat),
        shape g = [gh; gw] -> all_zero g ->
        exists a hier, findContours B g = Ok (Fc3 a [] hier)) ->
    (forall (im im' : tensor Z) (idx : Z) (rgb : Z * Z * Z) (th : Z),
        drawContours B im [] idx rgb th = Ok im' -> im' = im) ->
    exists out : list exn,
      draw_grid_contour B im_grid seg color kw wd
      = (Ok im_grid,
         {| stdout := stdout wd ++ out; display_msg := display_msg wd |}).
Proof.
  intros B im_grid seg V d h w k color kw wd Hseg Hs Hz Hd Hh Hw Ho Hk Hm Hc
    Hb Hn Hfind Hdraw.
  destruct (@seg_grid_all_zero seg V d h w k kw Hseg Hs Hz Hd Hh Hw Ho Hk Hm
              Hc Hb Hn)
    as [g [gh [gw [Hg [Hgs Hgz]]]]].
  destruct (Hfind g gh gw Hgs Hgz) as [a [hier Hf]].
  unfold draw_grid_contour, find_contours, draw_step, try_except, bind, lift,
    print, ret.
  rewrite Hg. cbn [rbind]. rewrite Hf. cbn [rbind unpack3].
  destruct (getRgb3 color) as [rgb | e].
  - destruct (drawContours B im_grid [] (-1) rgb (thickness kw)) as [im' | e]
      eqn:Ed.
    + apply Hdraw in Ed. subst im'. exists []. now rewrite world_eta.
    + exists [e]. reflexivity.
  - exists [e]. reflexivity.
Qed.

Lemma flat_map_all_nil {A C} (f : A -> list C) (l : list A) :
  (forall x, f x = []) -> flat_map f l = [].
Proof.
  intros H. induction l as [|x l IH]; simpl; [reflexivity|].
  now rewrite H, IH.
Qed.

Lemma reference_no_contour_in_zero_image (g : tensor Z) (gh gw : nat) :
  shape g = [gh; gw] -> all_zero g ->
  exists a hier, findContours Reference.opencv3 g = Ok (Fc3 a [] hier).
Proof.
  intros Hs Hz. exists g, []. cbn [findContours Reference.opencv3].
  unfold Reference.findContours3. rewrite Hs.
  assert (Hgray : forall y x, Reference.gray_at g y x = 0).
  { intros y x. unfold Reference.gray_at. rewrite Hs.
    destruct (_ && _); [|reflexivity].
    apply Forall_nth_default with (P := fun v => v = 0);
      [reflexivity | exact Hz]. }
  assert (Hb : Reference.boundary_points g = []).
  { unfold Reference.boundary_points. rewrite Hs.
    apply flat_map_all_nil. intros y. apply flat_map_all_nil. intros x.
    unfold Reference.on_boundary. rewrite Hgray. reflexivity. }
  unfold Reference.contours_of. rewrite Hb. reflexivity.
Qed.

Lemma reference_draws_nothing_for_no_contour (im im' : tensor Z) (idx : Z)
    (rgb : Z * Z * Z) (th : Z) :
  drawContours Reference.opencv3 im [] idx rgb th = Ok im' -> im' = im.
Proof.
  cbn [drawContours Reference.opencv3]. unfold Reference.paint_contours.
  intros H. injection H as <-. reflexivity.
Qed.

(** An all-zero mask of two slices drawn in yellow onto a black grid. *)
Lemma zero_mask_leaves_grid_unchanged_witness :
  exists out : list exn,
    draw_grid_contour Reference.opencv3 black_grid (NdArray (zero_mask 2 2 2))
      yellow offset0 w0
    = (Ok black_grid,
       {| stdout := stdout w0 ++ out; display_msg := display_msg w0 |}).
Proof.
  apply (@zero_mask_leaves_grid_unchanged Reference.opencv3 black_grid
           (NdArray (zero_mask 2 2 2)) (zero_mask 2 2 2) 2 2 2 0 yellow
           offset0 w0).
  - left. reflexivity.
  - reflexivity.
  - unfold all_zero, zero_mask. cbn [data].
    apply Forall_forall. intros v Hv. now apply repeat_spec in Hv.
  - lia.
  - lia.
  - lia.
  - reflexivity.
  - lia.
  - simpl. lia.
  - reflexivity.
  - reflexivity.
  - intros n H. discriminate H.
  - exact reference_no_contour_in_zero_image.
  - exact reference_draws_nothing_for_no_contour.
Defined.

(** * Further properties of the composer *)

(** ** Crop bounds *)

Lemma upper_bounds_Forall2 (ls : list (Z * Z)) (ms : list nat) :
  let us := map (fun lsm : Z * Z * Z =>
                   Z.min (fst (fst lsm) + snd (fst lsm)) (snd lsm))
                (combine ls (map Z.of_nat ms)) in
  Forall2 (fun u m => u <= Z.of_nat m) us (firstn (List.length us) ms).
Proof.
  cbv zeta. revert ms. induction ls as [|x ls IH]; intros ms.
  - simpl. constructor.
  - destruct ms as [|m ms]; simpl; constructor; [lia | apply IH].
Qed.

(** X1.  The crop bounds as the code computes them: there is one lower
    bound per pair of centre and size entries and none is negative; the i-th
    upper bound never exceeds the i-th entry of [im_shape[1:]]. *)
Theorem crop_bounds_range :
  forall (c : crop_spec) (im_shape : list nat),
    Forall (fun l => 0 <= l) (lower_bounds c)
    /\ List.length (lower_bounds c)
       = Nat.min (List.length (center c)) (List.length (size c))
    /\ Forall2 (fun u m => u <= Z.of_nat m)
         (upper_bounds c im_shape)
         (firstn (List.length (upper_bounds c im_shape)) (tl im_shape)).
Proof.
  intros c im_shape. split; [| split].
  - unfold lower_bounds. apply Forall_map, Forall_forall. intros cs _. lia.
  - unfold lower_bounds. now rewrite length_map, length_combine.
  - unfold upper_bounds. apply upper_bounds_Forall2.
Qed.

(** ** Well-formed tensors *)

Lemma numel_app (s1 s2 : list nat) :
  numel (s1 ++ s2) = (numel s1 * numel s2)%nat.
Proof.
  induction s1 as [|d s1 IH]; simpl; [lia|]. rewrite IH. lia.
Qed.

Lemma numel_split (s : list nat) (ax : nat) :
  (ax < List.length s)%nat ->
  numel s
  = (numel (firstn ax s) * (nth ax s 0%nat * numel (skipn (S ax) s)))%nat.
Proof.
  revert ax. induction s as [|d s IH]; intros ax H; simpl in H; [lia|].
  destruct ax as [|ax]; simpl.
  - lia.
  - rewrite (IH ax) by lia. simpl. lia.
Qed.

Lemma length_chunks {A} (n c : nat) (l : list A) :
  List.length (chunks n c l) = c.
Proof.
  revert l. induction c as [|c IH]; intros l; simpl; [reflexivity|].
  now rewrite IH.
Qed.

Lemma chunks_lengths {A} (n c : nat) (l : list A) :
  List.length l = (c * n)%nat ->
  Forall (fun x => List.length x = n) (chunks n c l).
Proof.
  revert l. induction c as [|c IH]; intros l H; simpl; constructor.
  - rewrite length_firstn. lia.
  - apply IH. rewrite length_skipn. lia.
Qed.

Lemma length_flat_map_const {A C} (f : A -> list C) (l : list A) (k : nat) :
  Forall (fun x => List.length (f x) = k) l ->
  List.length (flat_map f l) = (List.length l * k)%nat.
Proof.
  induction 1 as [|x l Hx _ IH]; simpl; [reflexivity|].
  rewrite length_app, Hx, IH. lia.
Qed.

Lemma slice_index_range (n i : Z) : 0 <= n -> 0 <= slice_index n i <= n.
Proof.
  intros Hn. unfold slice_index. destruct (i <? 0) eqn:E.
  - apply Z.ltb_lt in E. lia.
  - apply Z.ltb_ge in E. lia.
Qed.

Lemma slice_index_nonneg (n i : Z) :
  0 <= n -> 0 <= i -> slice_index n i = Z.min i n.
Proof.
  intros Hn Hi. unfold slice_index. now zbool.
Qed.

(** Slicing one axis keeps a tensor well-formed. *)
Lemma slice_axis_wf {A} (t : tensor A) (ax : nat) (lo hi : Z) :
  (ax < dim t)%nat -> wf t -> wf (slice_axis ax lo hi t).
Proof.
  unfold wf, dim. intros Hax Hwf. unfold slice_axis. cbn [shape data].
  set (n := nth ax (shape t) 0%nat) in *.
  set (a := Z.to_nat (slice_index (Z.of_nat n) lo)).
  set (b := Z.to_nat (slice_index (Z.of_nat n) hi)).
  set (outer := numel (firstn ax (shape t))).
  set (inner := numel (skipn (S ax) (shape t))).
  assert (Hb : (b <= n)%nat).
  { subst b. pose proof (@slice_index_range (Z.of_nat n) hi ltac:(lia)). lia. }
  assert (Ha : (a <= n)%nat).
  { subst a. pose proof (@slice_index_range (Z.of_nat n) lo ltac:(lia)). lia. }
  rewrite (numel_split (shape t) Hax) in Hwf. fold n outer inner in Hwf.
  rewrite (@length_flat_map_const _ _ _ _ ((b - a) * inner)%nat).
  - rewrite length_chunks, !numel_app. cbn [numel fold_right].
    fold (numel (skipn (S ax) (shape t))). fold outer inner. nia.
  - eapply Forall_impl; [| apply chunks_lengths; exact Hwf].
    intros c Hc. cbv beta. rewrite length_firstn, length_skipn, Hc.
    rewrite <- Nat.mul_sub_distr_r. apply Nat.min_l.
    apply Nat.mul_le_mono_r. lia.
Qed.

(** ** The crop step on a batch *)

(** X2.  On a well-formed batch [D x C x H x W], a crop whose centre and
    size have two entries each and whose sizes are not negative never raises:
    it returns a well-formed batch with the same depth and channel count whose
    spatial extents did not grow.  As the bounds are capped by
    [im_shape[1:]], the first spatial extent is at most the channel count and
    the second at most the first spatial extent of the input.  A centre or
    size with fewer than two entries raises [IndexError]. *)
Theorem crop_step_shape :
  forall (c : crop_spec) (image : tensor Z) (d ch h w : nat),
    shape image = [d; ch; h; w] -> wf image ->
    ((2 <= List.length (center c))%nat ->
     (2 <= List.length (size c))%nat ->
     Forall (fun s => 0 <= s) (size c) ->
     exists (t : tensor Z) (h' w' : nat),
       crop_step (Some c) image = Ok t
       /\ shape t = [d; ch; h'; w']
       /\ (h' <= Nat.min h ch)%nat /\ (w' <= Nat.min w h)%nat
       /\ wf t)
    /\ ((List.length (center c) < 2)%nat \/ (List.length (size c) < 2)%nat ->
        crop_step (Some c) image = Raise IndexError).
Proof.
  intros c image d ch h w Hs Hwf. split.
  - intros Hc Hz Hpos.
    destruct c as [cen sz]. cbn [center size] in *.
    destruct cen as [|c0 [|c1 cen]]; simpl in Hc; try lia.
    destruct sz as [|s0 [|s1 sz]]; simpl in Hz; try lia.
    inversion Hpos as [|? ? Hs0 Hpos']; subst.
    inversion Hpos' as [|? ? Hs1 _]; subst.
    unfold crop_step, lower_bounds, upper_bounds, dim. rewrite Hs.
    cbn [center size combine map tl fst snd py_index nth_error rbind
         List.length Nat.ltb Nat.leb].
    set (l0 := Z.max 0 (c0 - s0 / 2)). set (l1 := Z.max 0 (c1 - s1 / 2)).
    set (u0 := Z.min (l0 + s0) (Z.of_nat ch)).
    set (u1 := Z.min (l1 + s1) (Z.of_nat h)).
    do 3 eexists. split; [reflexivity|].
    assert (Hd1 : (2 < dim image)%nat) by (unfold dim; rewrite Hs; simpl; lia).
    pose proof (@slice_axis_wf _ image 2 l0 u0 Hd1 Hwf) as Hwf1.
    assert (Hd2 : (3 < dim (slice_axis 2 l0 u0 image))%nat).
    { unfold dim, slice_axis. cbn [shape]. rewrite Hs. simpl. lia. }
    pose proof (@slice_axis_wf _ _ 3 l1 u1 Hd2 Hwf1) as Hwf2.
    split; [| split; [| split; [| exact Hwf2]]].
    + unfold slice_axis at 1. cbn [shape]. unfold slice_axis. cbn [shape].
      rewrite Hs. cbn [firstn skipn nth app]. reflexivity.
    + cbn [fst snd]. subst l0 l1 u0 u1.
      rewrite !slice_index_nonneg by lia. lia.
    + cbn [fst snd]. subst l0 l1 u0 u1.
      rewrite !slice_index_nonneg by lia. lia.
  - intros Hshort. destruct c as [cen sz]. cbn [center size] in *.
    unfold crop_step, lower_bounds, upper_bounds. cbn [center size].
    destruct cen as [|c0 [|c1 cen]]; destruct sz as [|s0 [|s1 sz]];
      simpl in Hshort; try lia; try reflexivity;
      rewrite Hs; reflexivity.
Qed.

Lemma crop_step_shape_witness :
  (exists (t : tensor Z) (h' w' : nat),
      crop_step (Some (mkCrop [1; 1] [4; 4]))
        (mkTensor [2; 1; 3; 2]%nat (data (vol 2 3 2)))
      = Ok t
      /\ shape t = [2; 1; h'; w']%nat
      /\ (h' <= Nat.min 3 1)%nat /\ (w' <= Nat.min 2 3)%nat
      /\ wf t)
  /\ crop_step (Some (mkCrop [1] [4; 4]))
       (mkTensor [2; 1; 3; 2]%nat (data (vol 2 3 2)))
     = Raise IndexError.
Proof.
  split.
  - apply (proj1 (@crop_step_shape (mkCrop [1; 1] [4; 4])
                    (mkTensor [2; 1; 3; 2]%nat (data (vol 2 3 2)))
                    2 1 3 2 eq_refl eq_refl)).
    + simpl. lia.
    + simpl. lia.
    + repeat constructor; lia.
  - apply (proj2 (@crop_step_shape (mkCrop [1] [4; 4])
                    (mkTensor [2; 1; 3; 2]%nat (data (vol 2 3 2)))
                    2 1 3 2 eq_refl eq_refl)).
    left. simpl. lia.
Defined.

(** ** The wrapper's configuration across calls *)

Lemma overlay_all_config (B : Backend) (pairs : list (pyimage * pycolor))
    (kw : kwargs) (im : tensor Z) (self : draw_grid_wrapper) (w : world) :
  _config (wrapper_after (overlay_all B pairs kw im self w)) = _config self.
Proof.
  revert im self w. induction pairs as [|[ss col] pairs IH]; intros im self w.
  - reflexivity.
  - simpl. destruct (draw_grid_contour B im ss col kw w) as [[im' | e] w'].
    + rewrite IH. reflexivity.
    + reflexivity.
Qed.

Lemma run_body_config (B : Backend) (c : config) (im : pyimage)
    (self : draw_grid_wrapper) (w : world) :
  target_im c = Some im ->
  _config (wrapper_after (run_body B c self w)) = Some (without_target_im c).
Proof.
  intros Ht. unfold run_body, pop_target_im. rewrite Ht.
  fold (without_target_im c).
  destruct (draw_grid B im (options (without_target_im c)) w) as [[img | e] w'].
  - cbn [segment segment_color without_target_im].
    destruct (segment c) as [ss|]; [destruct (segment_color c) as [cs|]|];
      try reflexivity.
    rewrite overlay_all_config. reflexivity.
  - reflexivity.
Qed.

Lemma run_config (B : Backend) (self : draw_grid_wrapper) (c : config)
    (im : pyimage) (w : world) :
  _config self = Some c -> target_im c = Some im ->
  _config (wrapper_after (run B self w)) = Some (without_target_im c).
Proof.
  intros Hc Ht. unfold run. rewrite Hc.
  pose proof (run_body_config B c self w Ht) as H.
  destruct (run_body B c self w) as [[[u | e] self'] w']; [exact H|].
  destruct e; exact H.
Qed.

(** X3.  [run] consumes the ['target_im'] entry of the configuration it was
    given: whatever the first call did once the entry was there (a result, a
    reported or a propagated failure), the configuration is left without the
    entry, and calling [run] again without configuring the wrapper anew
    raises [KeyError]. *)
Theorem run_consumes_target_im :
  forall (B : Backend) (self : draw_grid_wrapper) (c : config) (im : pyimage)
         (w w2 : world),
    _config self = Some c -> target_im c = Some im ->
    _config (wrapper_after (run B self w)) = Some (without_target_im c)
    /\ run B (wrapper_after (run B self w)) w2
       = (Raise KeyError, wrapper_after (run B self w), w2).
Proof.
  intros B self c im w w2 Hc Ht.
  pose proof (run_config B self w Hc Ht) as H. split; [exact H|].
  unfold run at 1. rewrite H. reflexivity.
Qed.

Lemma run_consumes_target_im_witness :
  _config (wrapper_after
             (run Reference.opencv3
                (configured (NdArray (vol 2 2 2)) None None) w0))
  = Some (without_target_im
            {| target_im := Some (NdArray (vol 2 2 2)); segment := None;
               segment_color := None; options := offset0 |})
  /\ run Reference.opencv3
       (wrapper_after
          (run Reference.opencv3
             (configured (NdArray (vol 2 2 2)) None None) w0)) w0
     = (Raise KeyError,
        wrapper_after
          (run Reference.opencv3
             (configured (NdArray (vol 2 2 2)) None None) w0), w0).
Proof.
  apply (@run_consumes_target_im Reference.opencv3
           (configured (NdArray (vol 2 2 2)) None None) _
           (NdArray (vol 2 2 2)) w0 w0 eq_refl eq_refl).
Defined.

Lemma dict_update_only_target_im (c : config) (im : pyimage) :
  dict_update c (only_target_im im) = with_target_im im c.
Proof.
  unfold dict_update, with_target_im. cbn. destruct c as [t s sc [? ? ? ? ? ? ?]].
  reflexivity.
Qed.

(** X4.  [update_config] on a wrapper that was never configured raises
    [AttributeError].  After a [run] that consumed ['target_im'], updating
    with a dict that holds only a new ['target_im'] gives back the
    configuration [run] was started with, the volume replaced and every other
    entry as it was; the stored result is not touched. *)
Theorem update_config_restores_target_im :
  forall (B : Backend) (self : draw_grid_wrapper) (u : config_update)
         (w w2 : world),
    (_config self = None ->
     update_config u self w = (Raise AttributeError, self, w))
    /\ (forall (c : config) (im im' : pyimage),
          _config self = Some c -> target_im c = Some im ->
          update_config (only_target_im im') (wrapper_after (run B self w)) w2
          = (Ok tt,
             {| _config := Some (with_target_im im' c);
                _result := _result (wrapper_after (run B self w)) |},
             w2)).
Proof.
  intros B self u w w2. split.
  - intros Hc. unfold update_config. now rewrite Hc.
  - intros c im im' Hc Ht. unfold update_config.
    rewrite (run_config B self w Hc Ht).
    rewrite dict_update_only_target_im. reflexivity.
Qed.

Lemma update_config_restores_target_im_witness :
  update_config (only_target_im (NdArray (vol 2 2 2)))
    {| _config := None; _result := None |} w0
  = (Raise AttributeError, {| _config := None; _result := None |}, w0)
  /\ update_config (only_target_im (NdArray (vol 4 2 2)))
       (wrapper_after
          (run Reference.opencv3
             (configured (NdArray (vol 2 2 2)) None None) w0)) w0
     = (Ok tt,
        {| _config :=
             Some (with_target_im (NdArray (vol 4 2 2))
                     {| target_im := Some (NdArray (vol 2 2 2));
                        segment := None; segment_color := None;
                        options := offset0 |});
           _result :=
             _result (wrapper_after
                        (run Reference.opencv3
                           (configured (NdArray (vol 2 2 2)) None None) w0)) |},
        w0).
Proof.
  split.
  - apply (proj1 (@update_config_restores_target_im Reference.opencv3
                    {| _config := None; _result := None |}
                    (only_target_im (NdArray (vol 2 2 2))) w0 w0)).
    reflexivity.
  - apply (proj2 (@update_config_restores_target_im Reference.opencv3
                    (configured (NdArray (vol 2 2 2)) None None)
                    (only_target_im (NdArray (vol 2 2 2))) w0 w0)
             _ (NdArray (vol 2 2 2)) (NdArray (vol 4 2 2))
             eq_refl eq_refl).
Defined.

Lemma draw_grid_Ok_offset (B : Backend) (image : pyimage) (kw : kwargs)
    (img : tensor Z) (w w1 : world) :
  draw_grid B image kw w = (Ok img, w1) ->
  w1 = w /\ assert_offset (offset kw) = Ok tt.
Proof.
  unfold draw_grid, lift. intros H. injection H as Hr <-. split; [reflexivity|].
  destruct (assert_offset (offset kw)) as [[] | e]; [reflexivity|].
  discriminate Hr.
Qed.

Lemma draw_grid_contour_None (B : Backend) (im_grid : tensor Z)
    (color : pycolor) (kw : kwargs) (w : world) :
  assert_offset (offset kw) = Ok tt ->
  draw_grid_contour B im_grid PyNone color kw w = (Raise AttributeError, w).
Proof.
  intros Ha. unfold draw_grid_contour, find_contours, seg_grid, bind, lift.
  rewrite Ha. reflexivity.
Qed.

(** X5.  When the volume was composed but a mask is missing ([None] where
    a mask volume is expected), [run] reports "Wrong drawing configuration",
    lets no exception out, and keeps the image composed so far as its
    result. *)
Theorem run_keeps_image_when_mask_is_missing :
  forall (B : Backend) (self : draw_grid_wrapper) (c : config)
         (target : pyimage) (img : tensor Z) (rest : list pyimage)
         (col : pycolor) (cs : list pycolor) (w w1 : world),
    _config self = Some c -> target_im c = Some target ->
    draw_grid B target (options c) w = (Ok img, w1) ->
    segment c = Some (PyNone :: rest) ->
    segment_color c = Some (col :: cs) ->
    run B self w
    = (Ok tt,
       {| _config := Some (without_target_im c); _result := Some img |},
       {| stdout := stdout w;
          display_msg := display_msg w
                         ++ ["Wrong drawing configuration"%string] |}).
Proof.
  intros B self c target img rest col cs w w1 Hc Ht Hd Hs Hsc.
  destruct (draw_grid_Ok_offset Hd) as [-> Ha].
  unfold run, run_body, pop_target_im, without_target_im. rewrite Hc, Ht.
  cbn [options segment segment_color]. rewrite Hd, Hs, Hsc.
  cbn [combine overlay_all].
  rewrite (draw_grid_contour_None B img col (options c) w Ha).
  reflexivity.
Qed.

Lemma run_keeps_image_when_mask_is_missing_witness :
  run Reference.opencv3
    (configured (NdArray (vol 2 2 2)) (Some [PyNone]) (Some [yellow])) w0
  = (Ok tt,
     {| _config :=
          Some (without_target_im
                  {| target_im := Some (NdArray (vol 2 2 2));
                     segment := Some [PyNone];
                     segment_color := Some [yellow]; options := offset0 |});
        _result := Some composed_2x2x2 |},
     {| stdout := stdout w0;
        display_msg := display_msg w0
                       ++ ["Wrong drawing configuration"%string] |}).
Proof.
  apply (@run_keeps_image_when_mask_is_missing Reference.opencv3
           (configured (NdArray (vol 2 2 2)) (Some [PyNone]) (Some [yellow]))
           _ (NdArray (vol 2 2 2)) composed_2x2x2 [] yellow [] w0 w0
           eq_refl eq_refl);
    vm_compute; reflexivity.
Defined.

(** ** The offset on image and mask *)

Lemma prepare_offset_prepend (U : tensor Z) (d h w : nat) (k : Z)
    (kw : kwargs) :
  shape U = [d; h; w] -> wf U ->
  (2 <= d)%nat -> h <> 1%nat -> w <> 1%nat -> 0 <= k ->
  prepare (with_offset (Some k) kw) U
  = prepare (with_offset (Some 0) kw) (prepend_zero_slices (Z.to_nat k) U).
Proof.
  intros Hs Hwf Hd Hh Hw Hk.
  assert (Hs' : shape (prepend_zero_slices (Z.to_nat k) U)
                = [(Z.to_nat k + d)%nat; h; w]).
  { unfold prepend_zero_slices. now rewrite Hs. }
  unfold prepare. cbn [offset with_offset nrow crop].
  rewrite (offset_step_prepend Hs Hwf) by (assumption || lia).
  rewrite (offset_step_prepend Hs' (wf_prepend (Z.to_nat k) Hs Hwf))
    by (assumption || lia).
  cbn [Z.to_nat]. erewrite prepend_zero by exact Hs'. reflexivity.
Qed.

Lemma seg_tensor_prepend (V : tensor Z) (d h w k : nat) :
  shape V = [d; h; w] ->
  seg_tensor (NdArray (prepend_zero_slices k V))
  = Tensor (prepend_zero_slices k (mkTensor (shape V) (map u8 (data V)))).
Proof.
  intros Hs. unfold seg_tensor, prepend_zero_slices. cbn [shape data].
  rewrite Hs. cbn [shape data]. rewrite map_app, map_repeat. reflexivity.
Qed.

(** X6.  For a volume or mask [D x H x W] with at least two slices and no
    spatial extent equal to 1, an offset [k >= 0] is the same as prepending
    [k] zero-filled slices and using offset 0, in [draw_grid] and in
    [draw_grid_contour] alike: outcome and output agree for every other
    argument. *)
Theorem offset_is_prepending :
  forall (B : Backend) (V : tensor Z) (d h w : nat) (k : Z) (kw : kwargs)
         (im_grid : tensor Z) (color : pycolor) (wd : world),
    shape V = [d; h; w] -> wf V ->
    (2 <= d)%nat -> h <> 1%nat -> w <> 1%nat -> 0 <= k ->
    draw_grid B (NdArray V) (with_offset (Some k) kw) wd
    = draw_grid B (NdArray (prepend_zero_slices (Z.to_nat k) V))
        (with_offset (Some 0) kw) wd
    /\ draw_grid_contour B im_grid (NdArray V) color
         (with_offset (Some k) kw) wd
       = draw_grid_contour B im_grid
           (NdArray (prepend_zero_slices (Z.to_nat k) V)) color
           (with_offset (Some 0) kw) wd.
Proof.
  intros B V d h w k kw im_grid color wd Hs Hwf Hd Hh Hw Hk. split.
  - now apply draw_grid_offset_prepend with (d := d) (h := h) (w := w).
  - unfold draw_grid_contour, find_contours, seg_grid.
    cbn [offset with_offset margins background thickness].
    rewrite (assert_offset_nonneg Hk), (@assert_offset_nonneg 0) by lia.
    rewrite (@seg_tensor_prepend V d h w (Z.to_nat k) Hs).
    cbn [seg_tensor as_tensor rbind].
    rewrite (@prepare_offset_prepend (mkTensor (shape V) (map u8 (data V)))
               d h w k kw) by
      (assumption || (unfold wf in *; cbn [shape data]; now rewrite length_map)).
    reflexivity.
Qed.

Lemma offset_is_prepending_witness :
  draw_grid Reference.opencv3 (NdArray (vol 2 2 2))
    (with_offset (Some 1) default_kwargs) w0
  = draw_grid Reference.opencv3 (NdArray (prepend_zero_slices 1 (vol 2 2 2)))
      offset0 w0
  /\ draw_grid_contour Reference.opencv3 black_grid (NdArray (vol 2 2 2))
       yellow (with_offset (Some 1) default_kwargs) w0
     = draw_grid_contour Reference.opencv3 black_grid
         (NdArray (prepend_zero_slices 1 (vol 2 2 2))) yellow offset0 w0.
Proof.
  apply (@offset_is_prepending Reference.opencv3 (vol 2 2 2) 2 2 2 1
           default_kwargs black_grid yellow w0);
    try reflexivity; lia.
Defined.

(** ** The colormap table *)

Lemma dict_get_not_in {V} (d : list (string * V)) (key : string) :
  ~ In key (map fst d) -> dict_get d key = Raise KeyError.
Proof.
  induction d as [|[k v] d IH]; intros H; simpl; [reflexivity|].
  simpl in H. destruct (String.eqb k key) eqn:E.
  - apply String.eqb_eq in E. tauto.
  - apply IH. tauto.
Qed.

(** X7.  How [draw_grid] treats its [cmap] argument on a grid image with at
    least one channel: [None] and 'Default' return the grid as it is; a name
    that is a key of [colormaps] sends channel 0 of the grid through
    [cv2.applyColorMap] with the identifier of the table; any other name
    raises [KeyError]. *)
Theorem colormap_lookup :
  forall (B : Backend) (im gray : tensor Z) (name : string),
    channel0 im = Ok gray ->
    cmap_step B None im = Ok im
    /\ cmap_step B (Some "Default"%string) im = Ok im
    /\ (~ In name (map fst colormaps) ->
        cmap_step B (Some name) im = Raise KeyError)
    /\ (In name (map fst colormaps) -> name <> "Default"%string ->
        exists id : colormap,
          dict_get colormaps name = Ok (Some id)
          /\ cmap_step B (Some name) im = applyColorMap B gray id).
Proof.
  intros B im gray name Hg. split; [reflexivity|]. split; [reflexivity|]. split.
  - intros Hn. unfold cmap_step.
    destruct (String.eqb name "Default") eqn:E.
    + apply String.eqb_eq in E. subst name. exfalso. apply Hn. simpl. tauto.
    + rewrite Hg. cbn [rbind]. now rewrite dict_get_not_in.
  - intros Hin Hd. unfold cmap_step.
    destruct (String.eqb name "Default") eqn:E.
    + apply String.eqb_eq in E. contradiction.
    + rewrite Hg. cbn [rbind]. simpl in Hin.
      repeat (destruct Hin as [<- | Hin];
              [try (exfalso; apply Hd; reflexivity);
               eexists; split; reflexivity |]).
      contradiction.
Qed.

Lemma colormap_lookup_witness :
  cmap_step Reference.opencv3 (Some "Viridis"%string) black_grid
  = Raise KeyError
  /\ exists id : colormap,
       dict_get colormaps "Jet"%string = Ok (Some id)
       /\ cmap_step Reference.opencv3 (Some "Jet"%string) black_grid
          = applyColorMap Reference.opencv3
              (mkTensor [4; 7]%nat (repeat 0 28)) id.
Proof.
  assert (Hg : channel0 black_grid = Ok (mkTensor [4; 7]%nat (repeat 0 28)))
    by reflexivity.
  split.
  - apply (proj1 (proj2 (proj2
             (@colormap_lookup Reference.opencv3 black_grid _ "Viridis"%string Hg)))).
    simpl. intros H.
    repeat (destruct H as [H | H]; [discriminate H |]). exact H.
  - apply (proj2 (proj2 (proj2
             (@colormap_lookup Reference.opencv3 black_grid _ "Jet"%string Hg)))).
    + simpl. tauto.
    + discriminate.
Defined.

(** ** The geometry depends on the shape alone *)

Lemma ConstantPad3d_front_geometry {A C} (k : Z) (v1 : A) (v2 : C)
    (t1 : tensor A) (t2 : tensor C) :
  shape t1 = shape t2 ->
  same_geometry (ConstantPad3d_front k v1 t1) (ConstantPad3d_front k v2 t2).
Proof.
  intros H. unfold ConstantPad3d_front, dim. rewrite <- H.
  destruct (skipn (List.length (shape t1) - 3) (shape t1))
    as [|d [|h [|w [|? ?]]]]; try reflexivity.
  destruct (k <? - Z.of_nat d); reflexivity.
Qed.

Lemma offset_step_geometry (o : option Z) (t1 t2 : tensor Z) :
  shape t1 = shape t2 ->
  same_geometry (offset_step o t1) (offset_step o t2).
Proof.
  intros H. destruct o as [k|]; simpl; [|exact H].
  apply ConstantPad3d_front_geometry. unfold squeeze. simpl. now rewrite H.
Qed.

Lemma channel_step_geometry (t1 t2 : tensor Z) :
  shape t1 = shape t2 ->
  same_geometry (channel_step t1) (channel_step t2).
Proof.
  intros H. unfold channel_step, dim, unsqueeze1. rewrite <- H.
  destruct (List.length (shape t1) =? 3)%nat; [|exact H].
  destruct (shape t1); reflexivity.
Qed.

Lemma nrow_step_shape (n : option Z) (t1 t2 : tensor Z) :
  shape t1 = shape t2 -> nrow_step n t1 = nrow_step n t2.
Proof.
  intros H. unfold nrow_step, len. now rewrite H.
Qed.

Lemma crop_step_geometry (c : option crop_spec) (t1 t2 : tensor Z) :
  shape t1 = shape t2 ->
  same_geometry (crop_step c t1) (crop_step c t2).
Proof.
  intros H. destruct c as [c|]; simpl; [|exact H].
  unfold dim. rewrite <- H.
  destruct (py_index (lower_bounds c) 0) as [l0|]; [|reflexivity].
  destruct (py_index (upper_bounds c (shape t1)) 0) as [u0|]; [|reflexivity].
  destruct (py_index (lower_bounds c) 1) as [l1|]; [|reflexivity].
  destruct (py_index (upper_bounds c (shape t1)) 1) as [u1|]; [|reflexivity].
  cbn [rbind]. destruct (List.length (shape t1) <? 4)%nat; [reflexivity|].
  unfold same_geometry, slice_axis. cbn [shape]. now rewrite <- H.
Qed.

(** Whether the preparation succeeds, with which column count and with
    which shape, is decided by the shape of the volume. *)
Lemma prepare_geometry (kw : kwargs) (t1 t2 : tensor Z) :
  shape t1 = shape t2 ->
  match prepare kw t1, prepare kw t2 with
  | Ok p1, Ok p2 => shape (fst p1) = shape (fst p2) /\ snd p1 = snd p2
  | Raise e1, Raise e2 => e1 = e2
  | _, _ => False
  end.
Proof.
  intros H. unfold prepare.
  pose proof (offset_step_geometry (offset kw) t1 t2 H) as H1.
  destruct (offset_step (offset kw) t1) as [a1|e1],
           (offset_step (offset kw) t2) as [a2|e2];
    simpl in H1; try contradiction; [|exact H1].
  cbn [rbind].
  pose proof (channel_step_geometry a1 a2 H1) as H2.
  destruct (channel_step a1) as [b1|e1], (channel_step a2) as [b2|e2];
    simpl in H2; try contradiction; [|exact H2].
  cbn [rbind]. rewrite (nrow_step_shape (nrow kw) b1 b2 H2).
  destruct (nrow_step (nrow kw) b2) as [n|e]; [|reflexivity].
  cbn [rbind].
  pose proof (crop_step_geometry (crop kw) b1 b2 H2) as H3.
  destruct (crop_step (crop kw) b1) as [c1|e1],
           (crop_step (crop kw) b2) as [c2|e2];
    simpl in H3; try contradiction; [|exact H3].
  cbn [rbind fst snd]. split; [exact H3 | reflexivity].
Qed.

Lemma cat3_shape_congr {A C} (t1 : tensor A) (t2 : tensor C) :
  shape t1 = shape t2 -> shape (cat3 t1) = shape (cat3 t2).
Proof.
  intros H. unfold cat3. rewrite <- H.
  destruct (shape t1) as [|b [|[|[|c]] [|h [|w [|? ?]]]]] eqn:E;
    cbn [shape]; congruence.
Qed.

Lemma make_grid_tiles_geometry {A C} (t1 : tensor A) (t2 : tensor C)
    (nrow padding : Z) (v1 : A) (v2 : C) :
  shape t1 = shape t2 ->
  same_geometry (make_grid_tiles t1 nrow padding v1)
                (make_grid_tiles t2 nrow padding v2).
Proof.
  intros H. unfold make_grid_tiles. rewrite <- H.
  destruct (shape t1) as [|b [|c [|h [|w [|? ?]]]]]; try reflexivity.
  destruct (b =? 1)%nat; [reflexivity|].
  destruct (grid_layout nrow (Z.of_nat b)) as [xy|e]; [|reflexivity].
  cbn [rbind]. destruct (padding <? 0); reflexivity.
Qed.

(** A volume [D x H x W] that passes the preparation has become a batch of
    single-channel images. *)
Lemma prepare_single_channel (kw : kwargs) (V : tensor Z) (d h w : nat)
    (p : tensor Z * Z) :
  shape V = [d; h; w] -> prepare kw V = Ok p ->
  exists d' h' w' : nat, shape (fst p) = [d'; 1%nat; h'; w'].
Proof.
  intros Hs Hp. unfold prepare in Hp.
  assert (H1 : forall a, offset_step (offset kw) V = Ok a ->
                         exists d', shape a = [d'; h; w]).
  { intros a Ha. destruct (offset kw) as [k|]; simpl in Ha.
    - unfold ConstantPad3d_front, dim, squeeze in Ha. cbn [shape data] in Ha.
      rewrite Hs in Ha. cbn [filter] in Ha.
      destruct (d =? 1)%nat, (h =? 1)%nat, (w =? 1)%nat;
        cbn [negb List.length Nat.sub skipn firstn] in Ha; try discriminate.
      destruct (k <? - Z.of_nat d); [discriminate|].
      injection Ha as <-. eexists. reflexivity.
    - injection Ha as <-. eexists. exact Hs. }
  destruct (offset_step (offset kw) V) as [a|]; [|discriminate].
  destruct (H1 a eq_refl) as [d' Ha]. cbn [rbind] in Hp.
  unfold channel_step, dim, unsqueeze1 in Hp. rewrite Ha in Hp.
  cbn [List.length Nat.eqb rbind] in Hp.
  destruct (nrow_step _ _) as [n|]; [|discriminate]. cbn [rbind] in Hp.
  destruct (crop kw) as [c|]; simpl in Hp.
  - destruct (py_index (lower_bounds c) 0) as [l0|]; [|discriminate].
    cbn [rbind] in Hp.
    destruct (py_index _ 0) as [u0|]; [|discriminate]. cbn [rbind] in Hp.
    destruct (py_index (lower_bounds c) 1) as [l1|]; [|discriminate].
    cbn [rbind] in Hp.
    destruct (py_index _ 1) as [u1|]; [|discriminate]. cbn [rbind] in Hp.
    injection Hp as <-. do 3 eexists. reflexivity.
  - injection Hp as <-. do 3 eexists. reflexivity.
Qed.

Lemma make_grid_tiles_channels {A} (t g : tensor A) (b c h w : nat)
    (nrow padding : Z) (pad_value : A) :
  shape t = [b; c; h; w] ->
  make_grid_tiles t nrow padding pad_value = Ok g ->
  exists gh gw : nat, shape g = [c; gh; gw].
Proof.
  intros Hs Hg. unfold make_grid_tiles in Hg. rewrite Hs in Hg.
  destruct (b =? 1)%nat.
  - injection Hg as <-. do 2 eexists. reflexivity.
  - destruct (grid_layout nrow (Z.of_nat b)) as [xy|]; [|discriminate].
    cbn [rbind] in Hg. destruct (padding <? 0); [discriminate|].
    injection Hg as <-. do 2 eexists. reflexivity.
Qed.

(** With a background of 300 the volume is composed, but the mask, a tensor
    of unsigned bytes, cannot be tiled: the fill value does not fit. *)
Lemma mask_fill_value_overflow :
  (exists im : tensor Z,
      draw_grid Reference.opencv3 (NdArray (vol 2 2 2)) overflowing_background w0
      = (Ok im, w0))
  /\ seg_grid (NdArray (zero_mask 2 2 2)) overflowing_background
     = Raise TorchError
  /\ forall (im_grid : tensor Z) (color : pycolor),
       draw_grid_contour Reference.opencv3 im_grid (NdArray (zero_mask 2 2 2))
         color overflowing_background w0
       = (Raise TorchError, w0).
Proof.
  split; [| split].
  - eexists. unfold draw_grid, lift. f_equal. vm_compute. reflexivity.
  - vm_compute. reflexivity.
  - intros im_grid color. reflexivity.
Qed.

(** X8.  The mask is tiled on the geometry of the image: whenever
    [draw_grid] has composed a volume [D x H x W] into a grid image (default
    colormap) with a background fill value that a byte can hold (0 to 255),
    the same configuration applied to a numpy mask of the same shape yields
    a mask grid, and the grid image is [gh x gw x 3] for the very [gh x gw]
    of the mask grid, so contours found in the one land on the right pixels
    of the other. *)
Theorem mask_grid_matches_image_grid :
  forall (B : Backend) (V S : tensor Z) (d h w : nat) (kw : kwargs)
         (wd wd' : world) (im : tensor Z),
    shape V = [d; h; w] -> shape S = [d; h; w] ->
    (cmap kw = None \/ cmap kw = Some "Default"%string) ->
    0 <= background kw <= 255 ->
    draw_grid B (NdArray V) kw wd = (Ok im, wd') ->
    exists (g : tensor Z) (gh gw : nat),
      seg_grid (NdArray S) kw = Ok g
      /\ shape g = [gh; gw]
      /\ shape im = [gh; gw; 3%nat].
Proof.
  intros B V S d h w kw wd wd' im HV HS Hcm Hbg Hd.
  unfold draw_grid, lift in Hd. injection Hd as Hr _.
  unfold seg_grid. cbv zeta.
  destruct (assert_offset (offset kw)) as [[]|]; [|discriminate].
  cbn [rbind as_tensor seg_tensor] in *.
  destruct (prepare kw V) as [p|] eqn:Hp; [|discriminate].
  cbn [rbind] in Hr. unfold make_grid_normalized in Hr.
  destruct (norm_range B (data (cat3 (fst p)))) as [fl|]; [|discriminate].
  cbn [rbind] in Hr.
  destruct (make_grid_tiles (mkTensor (shape (cat3 (fst p))) fl) (snd p)
              (margins kw) (to_float B (background kw))) as [g1|] eqn:Hg1;
    [|discriminate].
  cbn [rbind] in Hr.
  destruct (prepare_single_channel kw V HV Hp) as [d' [h' [w' Hps]]].
  assert (Hc3 : shape (cat3 (fst p)) = [d'; 3%nat; h'; w']).
  { unfold cat3. rewrite Hps. reflexivity. }
  assert (Hg1s : exists gh gw : nat, shape g1 = [3%nat; gh; gw]).
  { eapply make_grid_tiles_channels; [| exact Hg1]. cbn [shape]. exact Hc3. }
  destruct Hg1s as [gh [gw Hg1s]].
  unfold permute_hwc in Hr. rewrite Hg1s in Hr. cbn [rbind] in Hr.
  assert (Him : shape im = [gh; gw; 3%nat]).
  { destruct Hcm as [E | E]; rewrite E in Hr; simpl in Hr;
      injection Hr as <-; reflexivity. }
  set (S' := mkTensor (shape S) (map u8 (data S))).
  assert (HS' : shape V = shape S') by (cbn [shape S']; congruence).
  pose proof (prepare_geometry kw V S' HS') as Hpg. rewrite Hp in Hpg.
  destruct (prepare kw S') as [p'|]; [|contradiction].
  destruct Hpg as [Hsh Hn]. cbn [rbind].
  rewrite make_grid_raw_fits
    by (cbn [mask_dtype representable]; now zbool).
  pose proof (@make_grid_tiles_geometry _ _
                (mkTensor (shape (cat3 (fst p))) fl) (cat3 (fst p')) (snd p)
                (margins kw) (to_float B (background kw)) (background kw)
                ltac:(cbn [shape]; now apply cat3_shape_congr)) as Hgg.
  rewrite Hg1 in Hgg. rewrite <- Hn.
  destruct (make_grid_tiles (cat3 (fst p')) (snd p) (margins kw)
              (background kw)) as [g1'|]; [|contradiction].
  simpl in Hgg. cbn [rbind]. unfold first_item. rewrite <- Hgg, Hg1s.
  cbn [rbind]. exists (mkTensor [gh; gw]
                         (map u8 (firstn (numel [gh; gw]) (data g1')))), gh, gw.
  split; [reflexivity | split; [reflexivity | exact Him]].
Qed.

Lemma mask_grid_matches_image_grid_witness :
  exists (g : tensor Z) (gh gw : nat),
    seg_grid (NdArray (zero_mask 2 2 2)) offset0 = Ok g
    /\ shape g = [gh; gw]
    /\ shape composed_2x2x2 = [gh; gw; 3%nat].
Proof.
  apply (@mask_grid_matches_image_grid Reference.opencv3 (vol 2 2 2)
           (zero_mask 2 2 2) 2 2 2 offset0 w0 w0 composed_2x2x2
           eq_refl eq_refl).
  - left. reflexivity.
  - simpl. lia.
  - vm_compute. reflexivity.
Defined.

(** ** Well-formedness along the mask pipeline *)

Lemma numel_squeeze (s : list nat) :
  numel (filter (fun d => negb (d =? 1)%nat) s) = numel s.
Proof.
  induction s as [|d s IH]; simpl; [reflexivity|].
  destruct (d =? 1)%nat eqn:E; simpl.
  - apply Nat.eqb_eq in E. subst d. rewrite IH. lia.
  - now rewrite IH.
Qed.

Lemma squeeze_wf {A} (t : tensor A) : wf t -> wf (squeeze t).
Proof.
  unfold wf, squeeze. cbn [shape data]. intros H. now rewrite numel_squeeze.
Qed.

Lemma ConstantPad3d_front_wf {A} (k : Z) (v : A) (t t' : tensor A) :
  wf t -> ConstantPad3d_front k v t = Ok t' -> wf t'.
Proof.
  unfold wf, ConstantPad3d_front, dim. intros Hwf H.
  set (r := List.length (shape t)) in *.
  destruct (skipn (r - 3) (shape t)) as [|d [|h [|w [|? ?]]]] eqn:Esk;
    try discriminate.
  destruct (k <? - Z.of_nat d) eqn:Ek; [discriminate|].
  apply Z.ltb_ge in Ek. injection H as <-. cbn [shape data].
  set (pre := firstn (r - 3) (shape t)) in *.
  assert (Hsplit : numel (shape t) = (numel pre * (d * h * w))%nat).
  { rewrite <- (firstn_skipn (r - 3) (shape t)), numel_app, Esk.
    fold pre. simpl. lia. }
  rewrite Hsplit in Hwf.
  rewrite (@length_flat_map_const _ _ _ _
             (Z.to_nat (Z.of_nat d + k) * h * w)%nat).
  - rewrite length_chunks, numel_app. simpl. lia.
  - eapply Forall_impl; [| apply chunks_lengths; exact Hwf].
    intros c Hc. cbv beta. destruct (0 <=? k) eqn:E0.
    + apply Z.leb_le in E0. rewrite length_app, repeat_length, Hc.
      replace (Z.to_nat (Z.of_nat d + k)) with (Z.to_nat k + d)%nat by lia.
      lia.
    + apply Z.leb_gt in E0. rewrite length_skipn, Hc.
      replace (Z.to_nat (Z.of_nat d + k)) with (d - Z.to_nat (- k))%nat by lia.
      rewrite !Nat.mul_sub_distr_r. reflexivity.
Qed.

Lemma offset_step_wf (o : option Z) (t t' : tensor Z) :
  wf t -> offset_step o t = Ok t' -> wf t'.
Proof.
  intros Hwf H. destruct o as [k|]; simpl in H.
  - eapply ConstantPad3d_front_wf; [| exact H]. now apply squeeze_wf.
  - now injection H as <-.
Qed.

Lemma channel_step_wf (t t' : tensor Z) :
  wf t -> channel_step t = Ok t' -> wf t'.
Proof.
  unfold channel_step, unsqueeze1, wf. intros Hwf H.
  destruct (dim t =? 3)%nat.
  - destruct (shape t) as [|d s] eqn:E; [discriminate|].
    injection H as <-. cbn [shape data]. simpl in *. lia.
  - now injection H as <-.
Qed.

Lemma crop_step_wf (c : option crop_spec) (t t' : tensor Z) :
  wf t -> crop_step c t = Ok t' -> wf t'.
Proof.
  intros Hwf H. destruct c as [c|]; simpl in H; [| now injection H as <-].
  destruct (py_index (lower_bounds c) 0) as [l0|]; [|discriminate].
  cbn [rbind] in H.
  destruct (py_index _ 0) as [u0|]; [|discriminate]. cbn [rbind] in H.
  destruct (py_index (lower_bounds c) 1) as [l1|]; [|discriminate].
  cbn [rbind] in H.
  destruct (py_index _ 1) as [u1|]; [|discriminate]. cbn [rbind] in H.
  destruct (dim t <? 4)%nat eqn:Ed; [discriminate|].
  apply Nat.ltb_ge in Ed. injection H as <-.
  apply slice_axis_wf.
  - unfold dim, slice_axis. cbn [shape].
    rewrite !length_app, length_firstn, length_skipn. cbn [List.length].
    unfold dim in Ed. lia.
  - apply slice_axis_wf; [lia | exact Hwf].
Qed.

Lemma prepare_wf (kw : kwargs) (t : tensor Z) (p : tensor Z * Z) :
  wf t -> prepare kw t = Ok p -> wf (fst p).
Proof.
  intros Hwf H. unfold prepare in H.
  destruct (offset_step (offset kw) t) as [a|] eqn:Ha; [|discriminate].
  cbn [rbind] in H.
  destruct (channel_step a) as [b|] eqn:Hb; [|discriminate].
  cbn [rbind] in H.
  destruct (nrow_step (nrow kw) b) as [n|]; [|discriminate].
  cbn [rbind] in H.
  destruct (crop_step (crop kw) b) as [c|] eqn:Hc; [|discriminate].
  injection H as <-. cbn [fst].
  eapply crop_step_wf; [| exact Hc].
  eapply channel_step_wf; [| exact Hb].
  eapply offset_step_wf; [exact Hwf | exact Ha].
Qed.

Lemma cat3_wf {A} (t : tensor A) : wf t -> wf (cat3 t).
Proof.
  unfold wf, cat3. intros Hwf.
  destruct (shape t) as [|b [|[|[|c]] [|h [|w [|? ?]]]]] eqn:E;
    try (rewrite E; exact Hwf).
  cbn [shape data].
  rewrite (@length_flat_map_const _ _ _ _ (3 * (h * w))%nat).
  - rewrite length_chunks. simpl. lia.
  - eapply Forall_impl; [| apply chunks_lengths; simpl in Hwf; lia].
    intros c Hc. cbv beta. rewrite !length_app, Hc. lia.
Qed.

Lemma make_grid_tiles_wf {A} (t g : tensor A) (nrow padding : Z)
    (pad_value : A) :
  wf t -> make_grid_tiles t nrow padding pad_value = Ok g -> wf g.
Proof.
  unfold wf, make_grid_tiles. intros Hwf H.
  destruct (shape t) as [|b [|c [|h [|w [|? ?]]]]] eqn:E; try discriminate.
  destruct (b =? 1)%nat eqn:Eb.
  - apply Nat.eqb_eq in Eb. subst b. injection H as <-. cbn [shape data].
    simpl in *. lia.
  - destruct (grid_layout nrow (Z.of_nat b)) as [xy|]; [|discriminate].
    cbn [rbind] in H. destruct (padding <? 0); [discriminate|].
    injection H as <-. cbn [shape data].
    set (gh := ((h + Z.to_nat padding) * Z.to_nat (snd xy)
                + Z.to_nat padding)%nat).
    set (gw := ((w + Z.to_nat padding) * Z.to_nat (fst xy)
                + Z.to_nat padding)%nat).
    rewrite (@length_flat_map_const _ _ _ _ (gh * gw)%nat).
    + rewrite length_seq. simpl. lia.
    + apply Forall_forall. intros ch _.
      rewrite (@length_flat_map_const _ _ _ _ gw).
      * now rewrite length_seq.
      * apply Forall_forall. intros gy _. now rewrite length_map, length_seq.
Qed.

(** X9.  What [draw_grid_contour] hands to [cv2.findContours]: for a
    well-formed mask volume [D x H x W], whenever the tiling succeeds the
    mask grid is a well-formed image of two axes whose pixels all lie in
    0..255. *)
Theorem seg_grid_is_uint8_image :
  forall (seg : pyimage) (V : tensor Z) (d h w : nat) (kw : kwargs)
         (g : tensor Z),
    seg = NdArray V \/ seg = Tensor V ->
    shape V = [d; h; w] -> wf V ->
    seg_grid seg kw = Ok g ->
    dim g = 2%nat /\ wf g /\ Forall (fun v => 0 <= v < 256) (data g).
Proof.
  intros seg V d h w kw g Hseg HV Hwf Hg. unfold seg_grid in Hg.
  cbv zeta in Hg.
  destruct (assert_offset (offset kw)) as [[]|]; [|discriminate].
  cbn [rbind] in Hg.
  assert (HV' : exists V', as_tensor (seg_tensor seg) = Ok V'
                           /\ shape V' = [d; h; w] /\ wf V').
  { destruct Hseg as [-> | ->]; simpl; eexists; split; try reflexivity.
    - split; [exact HV|]. unfold wf in *. cbn [shape data].
      now rewrite length_map.
    - split; assumption. }
  destruct HV' as [V' [HV' [HVs HVwf]]]. rewrite HV' in Hg. cbn [rbind] in Hg.
  destruct (prepare kw V') as [p|] eqn:Hp; [|discriminate]. cbn [rbind] in Hg.
  destruct (make_grid_raw (mask_dtype seg) (fst p) (snd p) (margins kw)
              (background kw)) as [g1|] eqn:Hg1; [|discriminate].
  apply make_grid_raw_Ok in Hg1.
  cbn [rbind] in Hg.
  destruct (prepare_single_channel kw V' HVs Hp) as [d' [h' [w' Hps]]].
  assert (Hc3 : shape (cat3 (fst p)) = [d'; 3%nat; h'; w']).
  { unfold cat3. rewrite Hps. reflexivity. }
  destruct (make_grid_tiles_channels _ _ _ _ Hc3 Hg1) as [gh [gw Hg1s]].
  assert (Hg1wf : wf g1).
  { eapply make_grid_tiles_wf; [| exact Hg1]. apply cat3_wf.
    eapply prepare_wf; [exact HVwf | exact Hp]. }
  unfold first_item in Hg. rewrite Hg1s in Hg. cbn [rbind] in Hg.
  injection Hg as <-. cbn [shape data]. split; [reflexivity|]. split.
  - unfold wf in *. cbn [shape data]. rewrite length_map, length_firstn.
    rewrite Hg1wf, Hg1s. simpl. lia.
  - apply Forall_map, Forall_forall. intros v _. unfold u8.
    apply Z.mod_pos_bound. lia.
Qed.

Lemma seg_grid_is_uint8_image_witness :
  exists g : tensor Z,
    seg_grid (NdArray (vol 2 2 2)) white_margins = Ok g
    /\ dim g = 2%nat /\ wf g /\ Forall (fun v => 0 <= v < 256) (data g).
Proof.
  eexists. split; [vm_compute; reflexivity|].
  apply (@seg_grid_is_uint8_image (NdArray (vol 2 2 2)) (vol 2 2 2) 2 2 2
           white_margins).
  - left. reflexivity.
  - reflexivity.
  - reflexivity.
  - vm_compute. reflexivity.
Defined.

(** * The reader thread *)

Section ReaderThreadProperties.

Variable reader : Type.
Variable reader_len : reader -> nat.
Variable _read_file : reader -> nat -> result reader.
Variable file_keys : reader -> list string.
Variable reader_items : reader -> list (string * pyimage).

Let read_loop := ReaderThread.read_loop _read_file file_keys.
Let reader_run := ReaderThread.run reader_len _read_file file_keys.

Lemma progress_below_100 (i l : nat) :
  (i < l)%nat -> 0 <= (100 * Z.of_nat i) / Z.of_nat l < 100.
Proof.
  intros H. split.
  - apply Z.div_pos; lia.
  - apply Z.div_lt_upper_bound; lia.
Qed.

(** Whatever the reader does, the loop emits only progress values below 100
    and keys. *)
Lemma read_loop_signals (l : nat) (indices : list nat) (r : reader)
    (emitted : list signal) :
  Forall (fun i => (i < l)%nat) indices ->
  exists body : list signal,
    snd (read_loop l indices r emitted) = emitted ++ body
    /\ Forall reading_signal body.
Proof.
  intros H. revert r emitted.
  induction H as [|i rest Hi _ IH]; intros r emitted.
  - exists []. simpl. now rewrite app_nil_r.
  - unfold read_loop in *. cbn [ReaderThread.read_loop].
    destruct (_read_file r i) as [r'|e].
    + destruct (nth_error (file_keys r') i) as [key|].
      * destruct (IH r' ((emitted
                            ++ [UpdateProgress
                                  (100 * Z.of_nat i / Z.of_nat l)])
                           ++ [UpdateViewList key])) as [body [Hb Hf]].
        exists (UpdateProgress (100 * Z.of_nat i / Z.of_nat l)
                  :: UpdateViewList key :: body).
        split.
        -- rewrite Hb, <- !app_assoc. reflexivity.
        -- repeat constructor; try exact Hf; now apply progress_below_100.
      * exists [UpdateProgress (100 * Z.of_nat i / Z.of_nat l)]. split.
        -- reflexivity.
        -- repeat constructor; now apply progress_below_100.
    + exists []. simpl. now rewrite app_nil_r.
Qed.

Lemma seq_below (n : nat) : Forall (fun i => (i < n)%nat) (seq 0 n).
Proof.
  apply Forall_forall. intros i Hi. apply in_seq in Hi. lia.
Qed.

(** The shape of everything [run] emits. *)
Lemma reader_run_shape (self : ngv_io_reader_wrapper reader)
    (emitted : list signal) :
  exists (self' : ngv_io_reader_wrapper reader) (body : list signal)
         (text : string),
    reader_run self emitted
    = (Ok tt, self', emitted ++ body ++ [DisplayMsg text])
    /\ Forall reading_signal body
    /\ (text = "Ready."%string \/ text = "Reader encounters error..."%string).
Proof.
  unfold reader_run, ReaderThread.run, ReaderThread.read_all_targets.
  destruct (_reader self) as [r|].
  - destruct (read_loop_signals r emitted (seq_below (reader_len r)))
      as [body [Hb Hf]].
    unfold read_loop in Hb.
    destruct (ReaderThread.read_loop _read_file file_keys (reader_len r)
                (seq 0 (reader_len r)) r emitted) as [[[[]|e] r'] tr'];
      simpl in Hb; subst tr'.
    + exists {| _reader := Some r' |}, body, "Ready."%string.
      rewrite <- app_assoc. auto.
    + exists {| _reader := Some r' |}, body,
        "Reader encounters error..."%string.
      rewrite <- app_assoc. auto.
  - exists self, [], "Reader encounters error..."%string. simpl. auto.
Qed.

End ReaderThreadProperties.

(** X10.  The reader thread's [run] never lets an exception out and always
    ends with exactly one status message, "Ready." or "Reader encounters
    error..."; before it come only keys for the view list and progress
    values between 0 and 99 (100 is never emitted).  Without a configured
    reader the error message is all it emits. *)
Theorem reader_run_always_reports :
  forall (reader : Type) (reader_len : reader -> nat)
         (_read_file : reader -> nat -> result reader)
         (file_keys : reader -> list string)
         (self : ngv_io_reader_wrapper reader) (emitted : list signal),
    (exists (self' : ngv_io_reader_wrapper reader) (body : list signal)
            (text : string),
        ReaderThread.run reader_len _read_file file_keys self emitted
        = (Ok tt, self', emitted ++ body ++ [DisplayMsg text])
        /\ Forall reading_signal body
        /\ (text = "Ready."%string
            \/ text = "Reader encounters error..."%string))
    /\ ReaderThread.run reader_len _read_file file_keys
         {| _reader := None |} emitted
       = (Ok tt, {| _reader := None |},
          emitted ++ [DisplayMsg "Reader encounters error..."]).
Proof.
  intros. split; [apply reader_run_shape | reflexivity].
Qed.

Lemma skipn_nth_error {A} (l : list A) (a : nat) (x : A) :
  nth_error l a = Some x -> skipn a l = x :: skipn (S a) l.
Proof.
  revert a. induction l as [|y l IH]; intros [|a] H; simpl in *;
    try discriminate.
  - now injection H as ->.
  - now apply IH.
Qed.

Section ReaderLaws.

Variable reader : Type.
Variable reader_len : reader -> nat.
Variable _read_file : reader -> nat -> result reader.
Variable file_keys : reader -> list string.

(** Reading a file does not change the file names. *)
Hypothesis keys_kept :
  forall (r r' : reader) (i : nat),
    _read_file r i = Ok r' -> file_keys r' = file_keys r.

Lemma read_loop_app (l : nat) (xs ys : list nat) (r : reader)
    (emitted : list signal) :
  ReaderThread.read_loop _read_file file_keys l (xs ++ ys) r emitted
  = match ReaderThread.read_loop _read_file file_keys l xs r emitted with
    | (Ok _, r', emitted') =>
        ReaderThread.read_loop _read_file file_keys l ys r' emitted'
    | failed => failed
    end.
Proof.
  revert r emitted. induction xs as [|i xs IH]; intros r emitted.
  - reflexivity.
  - cbn [app ReaderThread.read_loop].
    destruct (_read_file r i) as [r'|e]; [|reflexivity].
    destruct (nth_error (file_keys r') i) as [key|]; [|reflexivity].
    apply IH.
Qed.

(** While the reads succeed, file after file is announced. *)
Lemma read_loop_reads (l n a : nat) (r : reader) (emitted : list signal) :
  (a + n <= List.length (file_keys r))%nat ->
  (forall (r0 : reader) (i : nat),
      (a <= i < a + n)%nat -> exists r1, _read_file r0 i = Ok r1) ->
  exists r' : reader,
    ReaderThread.read_loop _read_file file_keys l (seq a n) r emitted
    = (Ok tt, r',
       emitted ++ flat_map (read_signals l)
                    (combine (seq a n) (skipn a (file_keys r))))
    /\ file_keys r' = file_keys r.
Proof.
  revert a r emitted. induction n as [|n IH]; intros a r emitted Hlen Hread.
  - exists r. simpl. now rewrite app_nil_r.
  - cbn [seq ReaderThread.read_loop].
    destruct (Hread r a ltac:(lia)) as [r1 Hr1]. rewrite Hr1.
    pose proof (keys_kept Hr1) as Hk. rewrite Hk.
    destruct (nth_error (file_keys r) a) as [key|] eqn:Ekey.
    2:{ apply nth_error_None in Ekey. lia. }
    destruct (IH (S a) r1
                ((emitted
                    ++ [UpdateProgress (100 * Z.of_nat a / Z.of_nat l)])
                   ++ [UpdateViewList key])
                ltac:(rewrite Hk; lia)
                ltac:(intros r0 i Hi; apply Hread; lia))
      as [r' [Hloop Hk']].
    exists r'. split; [| congruence].
    rewrite Hloop, Hk, (skipn_nth_error _ _ Ekey).
    cbn [combine flat_map read_signals fst snd]. rewrite <- !app_assoc.
    reflexivity.
Qed.

End ReaderLaws.

(** X11.  For a reader whose length is the number of its file names and
    whose reads do not change the names: when every read succeeds, [run]
    announces file after file, the progress [(100 * i) // l] and then the
    name of file [i], and ends with "Ready."; when the read of file [j] is
    the first to fail, it announces the files before [j] and ends with
    "Reader encounters error...". *)
Theorem reader_run_trace :
  forall (reader : Type) (reader_len : reader -> nat)
         (_read_file : reader -> nat -> result reader)
         (file_keys : reader -> list string)
         (r : reader) (emitted : list signal),
    (forall (r1 r2 : reader) (i : nat),
        _read_file r1 i = Ok r2 -> file_keys r2 = file_keys r1) ->
    reader_len r = List.length (file_keys r) ->
    ((forall (r1 : reader) (i : nat),
         (i < reader_len r)%nat -> exists r2, _read_file r1 i = Ok r2) ->
     exists self' : ngv_io_reader_wrapper reader,
       ReaderThread.run reader_len _read_file file_keys
         {| _reader := Some r |} emitted
       = (Ok tt, self',
          emitted
          ++ flat_map (read_signals (reader_len r))
               (combine (seq 0 (reader_len r)) (file_keys r))
          ++ [DisplayMsg "Ready."]))
    /\ (forall j : nat,
          (j < reader_len r)%nat ->
          (forall (r1 : reader) (i : nat),
              (i < j)%nat -> exists r2, _read_file r1 i = Ok r2) ->
          (forall r1 : reader, exists e, _read_file r1 j = Raise e) ->
          exists self' : ngv_io_reader_wrapper reader,
            ReaderThread.run reader_len _read_file file_keys
              {| _reader := Some r |} emitted
            = (Ok tt, self',
               emitted
               ++ flat_map (read_signals (reader_len r))
                    (combine (seq 0 j) (file_keys r))
               ++ [DisplayMsg "Reader encounters error..."])).
Proof.
  intros reader reader_len _read_file file_keys r emitted Hkeys Hlen. split.
  - intros Hread.
    destruct (@read_loop_reads reader _read_file file_keys Hkeys
                (reader_len r) (reader_len r) 0 r emitted
                ltac:(lia) ltac:(intros r0 i Hi; apply Hread; lia))
      as [r' [Hloop _]].
    unfold ReaderThread.run, ReaderThread.read_all_targets. cbn [_reader].
    rewrite Hloop. cbn [skipn]. rewrite <- app_assoc. eexists. reflexivity.
  - intros j Hj Hread Hfail.
    destruct (@read_loop_reads reader _read_file file_keys Hkeys
                (reader_len r) j 0 r emitted
                ltac:(lia) ltac:(intros r0 i Hi; apply Hread; lia))
      as [r' [Hloop _]].
    unfold ReaderThread.run, ReaderThread.read_all_targets. cbn [_reader].
    assert (Hseq : seq 0 (reader_len r)
                   = seq 0 j ++ j :: seq (S j) (reader_len r - S j)).
    { replace (reader_len r) with (j + S (reader_len r - S j))%nat at 1
        by lia.
      rewrite seq_app. reflexivity. }
    rewrite Hseq, read_loop_app, Hloop.
    cbn [ReaderThread.read_loop]. destruct (Hfail r') as [e He]. rewrite He.
    cbn [skipn]. rewrite <- app_assoc. eexists. reflexivity.
Qed.

Lemma reader_run_trace_witness :
  (exists self' : ngv_io_reader_wrapper (list string),
      ReaderThread.run (@List.length string) (list_reader_read []) (fun r => r)
        {| _reader := Some ["a"; "b"; "c"]%string |} []
      = (Ok tt, self',
         [UpdateProgress 0; UpdateViewList "a";
          UpdateProgress 33; UpdateViewList "b";
          UpdateProgress 66; UpdateViewList "c"; DisplayMsg "Ready."]))
  /\ exists self' : ngv_io_reader_wrapper (list string),
       ReaderThread.run (@List.length string) (list_reader_read [1%nat])
         (fun r => r) {| _reader := Some ["a"; "b"; "c"]%string |} []
       = (Ok tt, self',
          [UpdateProgress 0; UpdateViewList "a";
           DisplayMsg "Reader encounters error..."]).
Proof.
  split.
  - apply (proj1 (@reader_run_trace (list string) (@List.length string)
                    (list_reader_read []) (fun r => r)
                    ["a"; "b"; "c"]%string []
                    ltac:(intros r1 r2 i H; now injection H as <-) eq_refl)).
    intros r1 i _. exists r1. reflexivity.
  - apply (proj2 (@reader_run_trace (list string) (@List.length string)
                    (list_reader_read [1%nat]) (fun r => r)
                    ["a"; "b"; "c"]%string []
                    ltac:(intros r1 r2 i H; unfold list_reader_read in H;
                          destruct (existsb (Nat.eqb i) [1%nat]);
                          [discriminate | now injection H as <-])
                    eq_refl) 1%nat).
    + simpl. lia.
    + intros r1 i Hi. exists r1. destruct i; [reflexivity | lia].
    + intros r1. exists ValueError. reflexivity.
Defined.

(** ** Iterating the reader through the wrapper *)

Lemma iter_loop_yields (N i : nat) (items : list (string * pyimage))
    (emitted : list signal) :
  N <> 0%nat ->
  ReaderThread.iter_loop N i items emitted
  = (items, None,
     emitted ++ flat_map (handling_signals N)
                  (combine (seq i (List.length items)) items)).
Proof.
  intros HN. revert i emitted.
  induction items as [|[key im] items IH]; intros i emitted.
  - simpl. now rewrite app_nil_r.
  - cbn [ReaderThread.iter_loop]. apply Nat.eqb_neq in HN. rewrite HN.
    rewrite IH. cbn [List.length seq combine flat_map handling_signals fst snd].
    rewrite <- app_assoc. reflexivity.
Qed.

(** X12.  Iterating the wrapper to exhaustion, for a reader whose length is
    the number of pairs it yields: the reader's pairs come out unchanged and
    in order, no exception ends the iteration, and before each pair its
    progress [(100 * i) // N] and "Handling: " with its key are emitted.
    Without a configured reader the iteration raises [TypeError] at once. *)
Theorem reader_iter_yields_items :
  forall (reader : Type) (reader_len : reader -> nat)
         (reader_items : reader -> list (string * pyimage))
         (r : reader) (emitted : list signal),
    reader_len r = List.length (reader_items r) ->
    ReaderThread.__iter__ reader_len reader_items {| _reader := Some r |}
      emitted
    = (reader_items r, None,
       emitted ++ flat_map (handling_signals (reader_len r))
                    (combine (seq 0 (reader_len r)) (reader_items r)))
    /\ ReaderThread.__iter__ reader_len reader_items {| _reader := None |}
         emitted
       = ([], Some TypeError, emitted).
Proof.
  intros reader reader_len reader_items r emitted Hlen.
  split; [| reflexivity].
  unfold ReaderThread.__iter__. cbn [_reader].
  destruct (reader_items r) as [|x items] eqn:E.
  - rewrite Hlen. simpl. now rewrite app_nil_r.
  - rewrite iter_loop_yields by (rewrite Hlen; discriminate).
    now rewrite Hlen.
Qed.

Lemma reader_iter_yields_items_witness :
  ReaderThread.__iter__ (@List.length (string * pyimage)) (fun r => r)
    {| _reader := Some [("a"%string, NdArray (vol 2 2 2));
                        ("b"%string, PyNone)] |} []
  = ([("a"%string, NdArray (vol 2 2 2)); ("b"%string, PyNone)], None,
     [] ++ flat_map (handling_signals 2)
             (combine (seq 0 2)
                [("a"%string, NdArray (vol 2 2 2)); ("b"%string, PyNone)]))
  /\ ReaderThread.__iter__ (@List.length (string * pyimage)) (fun r => r)
       {| _reader := None |} []
     = ([], Some TypeError, []).
Proof.
  apply (@reader_iter_yields_items (list (string * pyimage))
           (@List.length (string * pyimage)) (fun r => r)
           [("a"%string, NdArray (vol 2 2 2)); ("b"%string, PyNone)] []).
  reflexivity.
Defined.

(** ** The reader's signals in the main window *)

Lemma deliver_reading_signal (u0 u : MainWindow.ui) (s : signal) :
  reading_signal s ->
  MainWindow.progress_value u < 100
  \/ MainWindow.progress_value u = MainWindow.progress_value u0 ->
  (MainWindow.progress_value (MainWindow.deliver u s) < 100
   \/ MainWindow.progress_value (MainWindow.deliver u s)
      = MainWindow.progress_value u0)
  /\ MainWindow.status_message (MainWindow.deliver u s)
     = MainWindow.status_message u.
Proof.
  intros Hs Hu. destruct s as [v | key | text]; simpl in Hs.
  - unfold MainWindow.deliver, MainWindow._update_progress,
      MainWindow.setValue. cbn [MainWindow.progress_value].
    replace (0 <=? v) with true by (symmetry; apply Z.leb_le; lia).
    replace (v <=? 100) with true by (symmetry; apply Z.leb_le; lia).
    replace (v =? 100) with false by (symmetry; apply Z.eqb_neq; lia).
    cbn. split; [left; lia | reflexivity].
  - split; [exact Hu | reflexivity].
  - contradiction.
Qed.

Lemma deliver_reading_signals (u0 : MainWindow.ui) (body : list signal) :
  Forall reading_signal body ->
  forall u : MainWindow.ui,
    MainWindow.progress_value u < 100
    \/ MainWindow.progress_value u = MainWindow.progress_value u0 ->
    (MainWindow.progress_value (fold_left MainWindow.deliver body u) < 100
     \/ MainWindow.progress_value (fold_left MainWindow.deliver body u)
        = MainWindow.progress_value u0)
    /\ MainWindow.status_message (fold_left MainWindow.deliver body u)
       = MainWindow.status_message u.
Proof.
  induction 1 as [|s body Hs _ IH]; intros u Hu.
  - split; [exact Hu | reflexivity].
  - cbn [fold_left].
    destruct (deliver_reading_signal u0 u s Hs Hu) as [Hp Hm].
    destruct (IH _ Hp) as [Hp' Hm']. split; [exact Hp' | congruence].
Qed.

(** X13.  With the connections of the main window, the signals of one
    [run] of the reader thread leave the status bar at "Ready." or at
    "Reader encounters error...", and the progress bar either where it was
    (nothing was read) or below 100: reading never brings the bar to 100. *)
Theorem reader_run_in_main_window :
  forall (reader : Type) (reader_len : reader -> nat)
         (_read_file : reader -> nat -> result reader)
         (file_keys : reader -> list string)
         (self : ngv_io_reader_wrapper reader) (u : MainWindow.ui),
    let emitted :=
      snd (ReaderThread.run reader_len _read_file file_keys self []) in
    let u' := fold_left MainWindow.deliver emitted u in
    (MainWindow.status_message u' = "Ready."%string
     \/ MainWindow.status_message u' = "Reader encounters error..."%string)
    /\ (MainWindow.progress_value u' < 100
        \/ MainWindow.progress_value u' = MainWindow.progress_value u).
Proof.
  intros reader reader_len _read_file file_keys self u.
  destruct (reader_run_shape reader_len _read_file file_keys self [])
    as [self' [body [text [Hrun [Hbody Htext]]]]].
  cbv zeta. rewrite Hrun. cbn [snd app].
  rewrite fold_left_app. cbn [fold_left MainWindow.deliver].
  destruct (deliver_reading_signals u Hbody u (or_intror eq_refl))
    as [Hp Hm].
  unfold MainWindow._show_message, MainWindow.showMessage.
  cbn [MainWindow.status_message MainWindow.progress_value].
  split; [exact Htext | exact Hp].
Qed.

(** * The logger *)

(** X14.  [qt_message_handler] never writes a log record: it passes the
    level it has chosen as the message and the text as the level, and
    [Logger.log] rejects a level that is not an integer, with [TypeError]
    under the default [logging.raiseExceptions]. *)
Theorem qt_message_handler_logs_nothing :
  forall (raiseExceptions : bool) (mode : Logger.QtMsgType) (message : string)
         (lg : Logger.logger),
    snd (Logger.qt_message_handler raiseExceptions mode message lg) = lg
    /\ Logger.qt_message_handler true mode message lg = (Raise TypeError, lg).
Proof.
  intros raiseExceptions mode message lg. split; [| reflexivity].
  unfold Logger.qt_message_handler, Logger.global_log, Logger.Logger_log.
  destruct raiseExceptions; reflexivity.
Qed.

(** * The size of the composed image *)

(** X15.  The size of the image [draw_grid] returns is fixed by the depth
    after the offset, the column count, the slice size and the margin: for a
    volume [D x H x W] (extents at least 2), offset [k >= 0], margin
    [p >= 0], no crop, the default colormap and a normalisation that
    succeeds, with [cols] the column count ([ceil(sqrt(D + k))] when unset,
    [min(n, D + k)] when set to [n >= 1]) and [rows = ceil((D + k) / cols)],
    the image is [((H + p) * rows + p) x ((W + p) * cols + p) x 3]. *)
Theorem composed_image_shape :
  forall (B : Backend) (V : tensor Z) (d h w : nat) (k : Z) (kw : kwargs)
         (wd : world),
    shape V = [d; h; w] -> wf V ->
    (2 <= d)%nat -> (2 <= h)%nat -> (2 <= w)%nat ->
    offset kw = Some k -> 0 <= k -> 0 <= margins kw ->
    crop kw = None ->
    (cmap kw = None \/ cmap kw = Some "Default"%string) ->
    (forall n : Z, nrow kw = Some n -> 1 <= n) ->
    (forall l : list Z, l <> [] -> exists fl, norm_range B l = Ok fl) ->
    let depth := Z.of_nat d + k in
    let p := margins kw in
    let cols := match nrow kw with
                | None => ceil_sqrt depth
                | Some n => Z.min n depth
                end in
    let rows := (depth + cols - 1) / cols in
    exists im : tensor Z,
      draw_grid B (NdArray V) kw wd = (Ok im, wd)
      /\ map Z.of_nat (shape im)
         = [(Z.of_nat h + p) * rows + p; (Z.of_nat w + p) * cols + p; 3].
Proof.
  intros B V d h w k kw wd Hs Hwf Hd Hh Hw Ho Hk Hm Hc Hcm Hn Hnorm.
  cbv zeta.
  destruct V as [s l]. simpl in Hs. subst s. unfold wf in Hwf. simpl in Hwf.
  unfold draw_grid, lift. rewrite Ho, (assert_offset_nonneg Hk).
  cbn [rbind as_tensor].
  rewrite (@prepare_no_crop kw l d h w k) by (assumption || lia).
  cbn [rbind fst snd]. unfold make_grid_normalized.
  rewrite cat3_shape, cat3_data.
  set (b := (Z.to_nat k + d)%nat).
  set (xs := repeat 0 (Z.to_nat k * h * w) ++ firstn (d * h * w) l).
  set (n := match nrow kw with
            | Some n => n
            | None => ceil_sqrt (Z.of_nat b)
            end).
  assert (Hxs : xs <> []).
  { subst xs. rewrite firstn_all2 by lia. destruct l; [simpl in Hwf; nia|].
    intros E. apply app_eq_nil in E. destruct E; discriminate. }
  destruct (Hnorm (flat_map (fun c => c ++ c ++ c) (chunks (h * w) b xs)))
    as [fl Hfl].
  { apply chunks_first_nonempty; [nia | lia | exact Hxs]. }
  rewrite Hfl. cbn [rbind].
  assert (Hb : Z.of_nat b = Z.of_nat d + k) by (subst b; lia).
  assert (Hcols : Z.min n (Z.of_nat b)
                  = match nrow kw with
                    | None => ceil_sqrt (Z.of_nat d + k)
                    | Some n => Z.min n (Z.of_nat d + k)
                    end).
  { subst n. rewrite Hb. destruct (nrow kw); [reflexivity|].
    pose proof (@ceil_sqrt_bounds (Z.of_nat d + k) ltac:(lia)). lia. }
  assert (Hpos : 0 < Z.min n (Z.of_nat b)).
  { rewrite Hcols. destruct (nrow kw) as [m|] eqn:En.
    - specialize (Hn m eq_refl). lia.
    - pose proof (@ceil_sqrt_bounds (Z.of_nat d + k) ltac:(lia)). lia. }
  destruct (@make_grid_tiles_shape _ (mkTensor [b; 3%nat; h; w] fl) b 3 h w n
              (margins kw) (to_float B (background kw)) eq_refl
              ltac:(lia) Hpos Hm) as [g [Hg Hgs]].
  rewrite Hg. cbn [rbind].
  destruct (permute_hwc_shape (to_float B 0) g Hgs) as [g' [Hg' Hgs']].
  rewrite Hg'. cbn [rbind].
  eexists. split.
  - f_equal. unfold cmap_step.
    destruct Hcm as [-> | ->]; [reflexivity|]. reflexivity.
  - cbn [shape]. rewrite Hgs'. cbn [map]. rewrite <- Hcols, <- Hb.
    set (x := Z.min n (Z.of_nat b)) in *.
    assert (Hrows : 0 <= (Z.of_nat b + x - 1) / x)
      by (apply Z.div_pos; lia).
    repeat f_equal; lia.
Qed.

Lemma composed_image_shape_witness :
  exists im : tensor Z,
    draw_grid Reference.opencv3 (NdArray (vol 4 2 2))
      (with_offset (Some 2) default_kwargs) w0
    = (Ok im, w0)
    /\ map Z.of_nat (shape im) = [7; 10; 3].
Proof.
  apply (@composed_image_shape Reference.opencv3 (vol 4 2 2) 4 2 2 2
           (with_offset (Some 2) default_kwargs) w0).
  - reflexivity.
  - reflexivity.
  - lia.
  - lia.
  - lia.
  - reflexivity.
  - lia.
  - simpl. lia.
  - reflexivity.
  - left. reflexivity.
  - intros n H. discriminate H.
  - exact reference_norm_succeeds.
Defined.

(** * The result a run leaves *)

(** X16.  What [get_result] returns after [run] once ['target_im'] was
    there: when [draw_grid] fails, for whatever reason, the result of the
    run before stays stored; when it succeeds and the configuration lacks
    ['segment'] or ['segment_color'], the composed image is stored as it
    is, without any overlay. *)
Theorem run_result :
  forall (B : Backend) (self : draw_grid_wrapper) (c : config)
         (target : pyimage) (w w1 : world),
    _config self = Some c -> target_im c = Some target ->
    (forall e : exn,
        draw_grid B target (options c) w = (Raise e, w1) ->
        get_result (wrapper_after (run B self w)) = get_result self)
    /\ (forall img : tensor Z,
          draw_grid B target (options c) w = (Ok img, w1) ->
          segment c = None \/ segment_color c = None ->
          run B self w
          = (Ok tt,
             {| _config := Some (without_target_im c); _result := Some img |},
             w1)).
Proof.
  intros B self c target w w1 Hc Ht. split.
  - intros e Hd. unfold run, run_body, pop_target_im. rewrite Hc, Ht.
    cbn [options]. rewrite Hd. destruct e; reflexivity.
  - intros img Hd Hseg. unfold run, run_body, pop_target_im, without_target_im.
    rewrite Hc, Ht. cbn [options segment segment_color]. rewrite Hd.
    destruct Hseg as [E | E]; rewrite E; [reflexivity|].
    destruct (segment c); reflexivity.
Qed.

Lemma run_result_witness :
  get_result
    (wrapper_after
       (run Reference.opencv3
          {| _config := Some {| target_im := Some (NdArray (vol 1 2 2));
                                segment := None; segment_color := None;
                                options := offset0 |};
             _result := Some black_grid |} w0))
  = Some black_grid
  /\ run Reference.opencv3 (configured (NdArray (vol 2 2 2)) None None) w0
     = (Ok tt,
        {| _config :=
             Some (without_target_im
                     {| target_im := Some (NdArray (vol 2 2 2));
                        segment := None; segment_color := None;
                        options := offset0 |});
           _result := Some composed_2x2x2 |},
        w0).
Proof.
  split.
  - apply (proj1 (@run_result Reference.opencv3
                    {| _config := Some {| target_im := Some (NdArray (vol 1 2 2));
                                          segment := None;
                                          segment_color := None;
                                          options := offset0 |};
                       _result := Some black_grid |}
                    _ (NdArray (vol 1 2 2)) w0 w0 eq_refl eq_refl)
             TorchError).
    reflexivity.
  - apply (proj2 (@run_result Reference.opencv3
                    (configured (NdArray (vol 2 2 2)) None None)
                    _ (NdArray (vol 2 2 2)) w0 w0 eq_refl eq_refl)
             composed_2x2x2).
    + vm_compute. reflexivity.
    + left. reflexivity.
Defined.

(** * Pixels of the composed image *)

(** ** Indexing into the tiled data *)







(** ** The tiles of [make_grid], pixel by pixel *)






(** ** Minimum to 0, maximum to 255 *)



(** ** The stand-in arithmetic covers the full range *)






